(** * CodeHub: the coding front end and the execution engine it calls

    A shallow embedding of the TypeScript sources of the coding feature
    (types/coding.ts, constants/languages.ts, components/coding/*.tsx,
    hooks/useCodeExecution.ts) and of the limits written by the execution
    images' Dockerfiles, followed by a model of the execution engine that
    the front end calls over HTTP.  JavaScript strings are sequences of
    UTF-16 code units, JavaScript numbers are binary64 floats, [undefined]
    is [None]. *)

From Stdlib Require Import ZArith QArith List String Ascii Floats Lia DecimalString.
From stdpp Require Import base option list gmap.

Set Warnings "-inexact-float".

(** ** JavaScript strings *)

Module JS.

Definition code_unit := N.
Definition jsstring := list code_unit.

(** An ASCII literal of the source as a sequence of code units. *)
Definition str (s : string) : jsstring :=
  N_of_ascii <$> list_ascii_of_string s.

(** The double quote, written apart from the literals. *)
Definition dq : jsstring := [34%N].

(** The lines of a template literal, separated by U+000A. *)
Fixpoint lines (ls : list jsstring) : jsstring :=
  match ls with
  | [] => []
  | [l] => l
  | l :: ls' => l ++ 10%N :: lines ls'
  end.

(** ToBoolean on a string: only the empty string is falsy. *)
Definition truthy (s : jsstring) : bool :=
  match s with [] => false | _ :: _ => true end.

(** [s || d] where [s] is a string or [undefined]. *)
Definition or_else (s : option jsstring) (d : jsstring) : jsstring :=
  match s with
  | Some v => if truthy v then v else d
  | None => d
  end.

(** WhiteSpace and LineTerminator of ECMAScript, the code units that
    [String.prototype.trim] removes. *)
Definition is_white_space (c : code_unit) : bool :=
  ((c =? 0x09) || (c =? 0x0A) || (c =? 0x0B) || (c =? 0x0C) || (c =? 0x0D)
   || (c =? 0x20) || (c =? 0xA0) || (c =? 0x1680)
   || ((0x2000 <=? c) && (c <=? 0x200A))
   || (c =? 0x2028) || (c =? 0x2029) || (c =? 0x202F) || (c =? 0x205F)
   || (c =? 0x3000) || (c =? 0xFEFF))%N.

Fixpoint trimStart (s : jsstring) : jsstring :=
  match s with
  | [] => []
  | c :: s' => if is_white_space c then trimStart s' else s
  end.

Definition trimEnd (s : jsstring) : jsstring := rev (trimStart (rev s)).

Definition trim (s : jsstring) : jsstring := trimEnd (trimStart s).

(** A string of white space only (the empty string included). *)
Definition blank (s : jsstring) : Prop :=
  Forall (fun c => is_white_space c = true) s.

(** Number.prototype.toString on a non-negative integer. *)
Definition number_to_string (n : nat) : jsstring :=
  str (NilEmpty.string_of_uint (Nat.to_uint n)).

(** [s.startsWith(prefix)] *)
Fixpoint startsWith (s prefix : jsstring) : bool :=
  match prefix, s with
  | [], _ => true
  | _ :: _, [] => false
  | p :: prefix', c :: s' => (c =? p)%N && startsWith s' prefix'
  end.

(** [s.includes(searchString)]: the search string occurs at some
    position. *)
Fixpoint includes (s searchString : jsstring) : bool :=
  startsWith s searchString
  || match s with
     | [] => false
     | _ :: s' => includes s' searchString
     end.

End JS.
Import JS.

(** ** types/coding.ts *)

Module TestCase.
Record t := {
  id : jsstring;
  input : jsstring;
  expectedOutput : jsstring;
  isHidden : bool;
  weight : float;
}.
End TestCase.

Module TestCaseResult.
Record t := {
  testCaseId : jsstring;
  passed : bool;
  actualOutput : jsstring;
  expectedOutput : jsstring;
  executionTime : float;
  error : option jsstring;
}.
End TestCaseResult.

Module ExecutionResult.
Record t := {
  success : bool;
  output : jsstring;
  error : option jsstring;
  executionTime : float;
  memoryUsage : float;
  testResults : option (list TestCaseResult.t);
}.
End ExecutionResult.

Module CodingQuestion.
Record t := {
  id : jsstring;
  title : jsstring;
  description : jsstring;
  language : jsstring;
  starterCode : jsstring;
  testCases : list TestCase.t;
  timeLimit : option float;
  memoryLimit : option float;
}.
End CodingQuestion.

(** [SupportedLanguage] is a union of string literals: at run time a plain
    string, and [question.language as SupportedLanguage] casts any string
    to it. *)
Definition SupportedLanguage := jsstring.

Module LanguageConfig.
Record t := {
  id : SupportedLanguage;
  name : jsstring;
  monacoLanguage : jsstring;
  defaultCode : jsstring;
  fileExtension : jsstring;
}.
End LanguageConfig.

(** ** constants/languages.ts *)

Definition SUPPORTED_LANGUAGES : list LanguageConfig.t :=
  [ {| LanguageConfig.id := str "python";
       LanguageConfig.name := str "Python";
       LanguageConfig.monacoLanguage := str "python";
       LanguageConfig.fileExtension := str "py";
       LanguageConfig.defaultCode :=
         lines
           [ str "def solution():";
             str "    # Write your code here";
             str "    pass";
             [];
             str "# Test your solution";
             str "if __name__ == " ++ dq ++ str "__main__" ++ dq ++ str ":";
             str "    result = solution()";
             str "    print(result)" ] |};
    {| LanguageConfig.id := str "javascript";
       LanguageConfig.name := str "JavaScript";
       LanguageConfig.monacoLanguage := str "javascript";
       LanguageConfig.fileExtension := str "js";
       LanguageConfig.defaultCode :=
         lines
           [ str "function solution() {";
             str "    // Write your code here";
             str "}";
             [];
             str "// Test your solution";
             str "console.log(solution());" ] |};
    {| LanguageConfig.id := str "typescript";
       LanguageConfig.name := str "TypeScript";
       LanguageConfig.monacoLanguage := str "typescript";
       LanguageConfig.fileExtension := str "ts";
       LanguageConfig.defaultCode :=
         lines
           [ str "function solution(): any {";
             str "    // Write your code here";
             str "}";
             [];
             str "// Test your solution";
             str "console.log(solution());" ] |};
    {| LanguageConfig.id := str "java";
       LanguageConfig.name := str "Java";
       LanguageConfig.monacoLanguage := str "java";
       LanguageConfig.fileExtension := str "java";
       LanguageConfig.defaultCode :=
         lines
           [ str "public class Solution {";
             str "    public static void main(String[] args) {";
             str "        Solution sol = new Solution();";
             str "        // Test your solution";
             str "        System.out.println(sol.solution());";
             str "    }";
             str "    ";
             str "    public Object solution() {";
             str "        // Write your code here";
             str "        return null;";
             str "    }";
             str "}" ] |};
    {| LanguageConfig.id := str "cpp";
       LanguageConfig.name := str "C++";
       LanguageConfig.monacoLanguage := str "cpp";
       LanguageConfig.fileExtension := str "cpp";
       LanguageConfig.defaultCode :=
         lines
           [ str "#include <iostream>";
             str "#include <vector>";
             str "#include <string>";
             [];
             str "using namespace std;";
             [];
             str "class Solution {";
             str "public:";
             str "    // Write your code here";
             str "    void solution() {";
             str "        ";
             str "    }";
             str "};";
             [];
             str "int main() {";
             str "    Solution sol;";
             str "    sol.solution();";
             str "    return 0;";
             str "}" ] |};
    {| LanguageConfig.id := str "csharp";
       LanguageConfig.name := str "C#";
       LanguageConfig.monacoLanguage := str "csharp";
       LanguageConfig.fileExtension := str "cs";
       LanguageConfig.defaultCode :=
         lines
           [ str "using System;";
             [];
             str "public class Solution ";
             str "{";
             str "    public static void Main(string[] args)";
             str "    {";
             str "        Solution sol = new Solution();";
             str "        // Test your solution";
             str "        Console.WriteLine(sol.SolutionMethod());";
             str "    }";
             str "    ";
             str "    public object SolutionMethod()";
             str "    {";
             str "        // Write your code here";
             str "        return null;";
             str "    }";
             str "}" ] |};
    {| LanguageConfig.id := str "go";
       LanguageConfig.name := str "Go";
       LanguageConfig.monacoLanguage := str "go";
       LanguageConfig.fileExtension := str "go";
       LanguageConfig.defaultCode :=
         lines
           [ str "package main";
             [];
             str "import " ++ dq ++ str "fmt" ++ dq;
             [];
             str "func solution() interface{} {";
             str "    // Write your code here";
             str "    return nil";
             str "}";
             [];
             str "func main() {";
             str "    result := solution()";
             str "    fmt.Println(result)";
             str "}" ] |};
    {| LanguageConfig.id := str "rust";
       LanguageConfig.name := str "Rust";
       LanguageConfig.monacoLanguage := str "rust";
       LanguageConfig.fileExtension := str "rs";
       LanguageConfig.defaultCode :=
         lines
           [ str "fn solution() -> Option<i32> {";
             str "    // Write your code here";
             str "    None";
             str "}";
             [];
             str "fn main() {";
             str "    let result = solution();";
             str "    println!(" ++ dq ++ str "{:?}" ++ dq ++ str ", result);";
             str "}" ] |} ].

(** [SUPPORTED_LANGUAGES.find(lang => lang.id === languageId)]. *)
Definition getLanguageConfig (languageId : jsstring) : option LanguageConfig.t :=
  find (fun lang => bool_decide (LanguageConfig.id lang = languageId))
       SUPPORTED_LANGUAGES.

(** [config?.defaultCode || ''] *)
Definition getDefaultCodeForLanguage (languageId : jsstring) : jsstring :=
  let config := getLanguageConfig languageId in
  or_else (LanguageConfig.defaultCode <$> config) (str "").

(** ** components/coding/MonacoCodeEditor.tsx *)

(** What a property read on an object literal with string values gives: an
    own property, or a member inherited from [Object.prototype], which is a
    function or an object and so truthy. *)
Inductive PropertyValue :=
  | StringValue (s : jsstring)
  | InheritedMember (key : jsstring).

Definition Object_prototype_keys : list jsstring :=
  str <$> [ "constructor"; "__defineGetter__"; "__defineSetter__";
            "hasOwnProperty"; "__lookupGetter__"; "__lookupSetter__";
            "isPrototypeOf"; "propertyIsEnumerable"; "toString"; "valueOf";
            "__proto__"; "toLocaleString" ]%string.

(** [o[key]]: own properties first, then the prototype. *)
Definition get_property (o : gmap jsstring jsstring) (key : jsstring)
  : option PropertyValue :=
  match o !! key with
  | Some v => Some (StringValue v)
  | None =>
      if bool_decide (key ∈ Object_prototype_keys)
      then Some (InheritedMember key) else None
  end.

Definition languageMap : gmap jsstring jsstring :=
  list_to_map (M := gmap jsstring jsstring)
    [ (str "python", str "python");
      (str "javascript", str "javascript");
      (str "typescript", str "typescript");
      (str "java", str "java");
      (str "cpp", str "cpp");
      (str "csharp", str "csharp");
      (str "go", str "go");
      (str "rust", str "rust") ].

(** [languageMap[language] || 'plaintext'] *)
Definition getMonacoLanguage (language : SupportedLanguage) : PropertyValue :=
  match get_property languageMap language with
  | Some (StringValue v) => StringValue (or_else (Some v) (str "plaintext"))
  | Some (InheritedMember k) => InheritedMember k
  | None => StringValue (str "plaintext")
  end.

(** ** Math.random

    The handlers of the coding interface draw from [Math.random].  A run is
    given the sequence of its draws and threads the position of the next
    one. *)

Definition Rand (A : Type) : Type := (nat -> float) -> nat -> A * nat.

#[export] Instance Rand_ret : MRet Rand := fun _ a _ i => (a, i).
#[export] Instance Rand_bind : MBind Rand :=
  fun _ _ k m draws i => let '(a, j) := m draws i in k a draws j.

Definition random : Rand float := fun draws i => (draws i, S i).

(** [array.map((x, index) => ...)]: the callback runs on the elements in
    index order. *)
Fixpoint map_with_index {A B} (f : A -> nat -> Rand B) (index : nat)
    (l : list A) : Rand (list B) :=
  match l with
  | [] => mret []
  | a :: l' =>
      b ← f a index;
      bs ← map_with_index f (S index) l';
      mret (b :: bs)
  end.

(** ** components/coding/CodingInterface.tsx *)

Module CodingInterface.

(** The component state that the two handlers read and write. *)
Record State := {
  code : jsstring;
  language : SupportedLanguage;
  isExecuting : bool;
  executionResult : option ExecutionResult.t;
}.

Definition setCode (v : jsstring) (st : State) : State :=
  {| code := v; language := language st;
     isExecuting := isExecuting st; executionResult := executionResult st |}.

Definition setLanguage (v : SupportedLanguage) (st : State) : State :=
  {| code := code st; language := v;
     isExecuting := isExecuting st; executionResult := executionResult st |}.

Definition setIsExecuting (v : bool) (st : State) : State :=
  {| code := code st; language := language st;
     isExecuting := v; executionResult := executionResult st |}.

Definition setExecutionResult (v : option ExecutionResult.t) (st : State) : State :=
  {| code := code st; language := language st;
     isExecuting := isExecuting st; executionResult := v |}.

(** The handler closes over [language] and [code] of the current render;
    the setters are applied to them. *)
Definition handleLanguageChange (newLanguage : SupportedLanguage) (st : State)
  : State :=
  if bool_decide (newLanguage ≠ language st) then
    let st1 := setLanguage newLanguage st in
    let defaultCode := getDefaultCodeForLanguage newLanguage in
    if negb (truthy (trim (code st)))
       || bool_decide (code st = getDefaultCodeForLanguage (language st))
    then setCode defaultCode st1
    else st1
  else st.

(** The callback of [question.testCases.map] in [handleRunTests]. *)
Definition mockTestResult (testCase : TestCase.t) (index : nat)
  : Rand TestCaseResult.t :=
  r ← random;
  let passed := (0.2 <? r)%float in
  t ← random;
  mret {| TestCaseResult.testCaseId := TestCase.id testCase;
          TestCaseResult.passed := passed;
          TestCaseResult.actualOutput :=
            if passed then TestCase.expectedOutput testCase
            else str "Incorrect output for test " ++ number_to_string (index + 1);
          TestCaseResult.expectedOutput := TestCase.expectedOutput testCase;
          TestCaseResult.executionTime := (50 + t * 100)%float;
          TestCaseResult.error := None |}.

(** The mock result built in the [try] block of [handleRunTests]. *)
Definition mockExecutionResult (question : CodingQuestion.t)
  : Rand ExecutionResult.t :=
  t ← random;
  m ← random;
  results ← map_with_index mockTestResult 0 (CodingQuestion.testCases question);
  mret {| ExecutionResult.success := true;
          ExecutionResult.output := str "All tests completed";
          ExecutionResult.error := None;
          ExecutionResult.executionTime := (300 + t * 200)%float;
          ExecutionResult.memoryUsage := (1024 * (768 + m * 256))%float;
          ExecutionResult.testResults := Some results |}.

(** [handleRunTests]: nothing in the [try] block throws (the awaited
    promise resolves, [map] runs on an array), so the [catch] block is
    not entered; [finally] resets [isExecuting]. *)
Definition handleRunTests (question : CodingQuestion.t) (st : State)
  : Rand (ExecutionResult.t * State) :=
  let st1 := setIsExecuting true st in
  result ← mockExecutionResult question;
  let st2 := setExecutionResult (Some result) st1 in
  mret (result, setIsExecuting false st2).

(** [useState(initialCode || question.starterCode || '')] and the other
    initial values of the component. *)
Definition initialState (question : CodingQuestion.t) (initialCode : option jsstring)
  : State :=
  {| code := or_else (Some (or_else initialCode (CodingQuestion.starterCode question)))
               (str "");
     language := CodingQuestion.language question;
     isExecuting := false;
     executionResult := None |}.

Definition handleCodeChange (newCode : jsstring) (st : State) : State :=
  setCode newCode st.

(** [getMockOutput]: the language is not looked at. *)
Definition getMockOutput (code : jsstring) (language : SupportedLanguage) : jsstring :=
  if includes code (str "print(") || includes code (str "console.log(")
     || includes code (str "System.out.println(") || includes code (str "cout <<")
     || includes code (str "Console.WriteLine(") || includes code (str "fmt.Println(")
     || includes code (str "println!(")
  then lines [str "Hello, World!"; str "42"; str "Code execution completed."]
  else str "Program executed successfully.".

(** [handleRunCode]: as in [handleRunTests], nothing in the [try] block
    throws.  The mock result has neither [error] nor [testResults]. *)
Definition handleRunCode (st : State) : Rand (ExecutionResult.t * State) :=
  let st1 := setIsExecuting true st in
  t ← random;
  m ← random;
  let result :=
    {| ExecutionResult.success := true;
       ExecutionResult.output :=
         lines [str "Code executed successfully!"; []; str "Output:";
                getMockOutput (code st) (language st)];
       ExecutionResult.error := None;
       ExecutionResult.executionTime := (150 + t * 200)%float;
       ExecutionResult.memoryUsage := (1024 * (512 + m * 256))%float;
       ExecutionResult.testResults := None |} in
  let st2 := setExecutionResult (Some result) st1 in
  mret (result, setIsExecuting false st2).

(** [handleReset] *)
Definition handleReset (question : CodingQuestion.t) (st : State) : State :=
  let defaultCode :=
    or_else (Some (CodingQuestion.starterCode question))
      (getDefaultCodeForLanguage (language st)) in
  setExecutionResult None (setCode defaultCode st).

End CodingInterface.

(** ** components/coding/CodeExecutionPanel.tsx *)

Module CodeExecutionPanel.

Definition getTestResultsSummary (testResults : list TestCaseResult.t)
  : nat * nat :=
  let passed := length (List.filter TestCaseResult.passed testResults) in
  let total := length testResults in
  (passed, total).

(** One entry of the "Test Results" tab.  [timeChip] holds the number that
    [formatExecutionTime] prints. *)
Record TestRow := {
  key : jsstring;
  passIcon : bool;
  title : jsstring;
  timeChip : float;
  errorAlert : option jsstring;
  expectedPaper : jsstring;
  actualPaper : jsstring;
  divider : bool;
}.

Definition renderRow (total : nat) (index : nat) (result : TestCaseResult.t)
  : TestRow :=
  {| key := TestCaseResult.testCaseId result;
     passIcon := TestCaseResult.passed result;
     title := str "Test Case " ++ number_to_string (index + 1);
     timeChip := TestCaseResult.executionTime result;
     errorAlert :=
       match TestCaseResult.error result with
       | Some e => if truthy e then Some e else None
       | None => None
       end;
     expectedPaper := TestCaseResult.expectedOutput result;
     actualPaper := TestCaseResult.actualOutput result;
     divider := bool_decide (index < total - 1) |}.

(** The second tab panel: the rows when [executionResult?.testResults] is
    there, the hint to click "Run Tests" ([None]) otherwise. *)
Definition renderTestResults (executionResult : option ExecutionResult.t)
  : option (list TestRow) :=
  match executionResult ≫= ExecutionResult.testResults with
  | Some testResults => Some (imap (renderRow (length testResults)) testResults)
  | None => None
  end.

(** The texts that a row puts in front of the user. *)
Definition rowTexts (row : TestRow) : list jsstring :=
  title row :: from_option (fun e => [e]) [] (errorAlert row)
    ++ [expectedPaper row; actualPaper row].

Definition visibleTexts (executionResult : option ExecutionResult.t)
  : list jsstring :=
  from_option (fun rows => rows ≫= rowTexts) [] (renderTestResults executionResult).

(** The chip in the label of the second tab. *)
Inductive ChipColor := success | error.

Record SummaryChip := {
  chipLabel : jsstring;
  chipColor : ChipColor;
}.

Definition summaryChip (testResults : list TestCaseResult.t) : SummaryChip :=
  let '(passed, total) := getTestResultsSummary testResults in
  {| chipLabel := number_to_string passed ++ str "/" ++ number_to_string total;
     chipColor := if (passed =? total)%nat then success else error |}.

(** The label of the second tab: the chip when
    [executionResult?.testResults] is there. *)
Definition testResultsTabChip (executionResult : option ExecutionResult.t)
  : option SummaryChip :=
  summaryChip <$> (executionResult ≫= ExecutionResult.testResults).

(** The first tab panel: [None] is the hint to click "Run Code";
    otherwise the error alert and the output box, each present when its
    string is truthy. *)
Record OutputTab := {
  outputAlert : option jsstring;
  outputPaper : option jsstring;
}.

Definition renderOutput (executionResult : option ExecutionResult.t)
  : option OutputTab :=
  match executionResult with
  | Some result =>
      Some {| outputAlert :=
                match ExecutionResult.error result with
                | Some e => if truthy e then Some e else None
                | None => None
                end;
              outputPaper :=
                if truthy (ExecutionResult.output result)
                then Some (or_else (Some (ExecutionResult.output result))
                             (str "No output"))
                else None |}
  | None => None
  end.

End CodeExecutionPanel.

(** ** pages/CodingDemoPage.tsx: the demo question *)

Definition mockCodingQuestion : CodingQuestion.t :=
  {| CodingQuestion.id := str "demo-question-1";
     CodingQuestion.title := str "Two Sum Problem";
     CodingQuestion.description :=
       str "Given an array of integers nums and an integer target, return indices of the two numbers such that they add up to target. You may assume that each input would have exactly one solution, and you may not use the same element twice.";
     CodingQuestion.language := str "python";
     CodingQuestion.starterCode :=
       lines
         [ str "def two_sum(nums, target):";
           str "    " ++ dq ++ dq ++ dq;
           str "    Find two numbers in the array that add up to target.";
           str "    ";
           str "    Args:";
           str "        nums: List of integers";
           str "        target: Target sum";
           str "        ";
           str "    Returns:";
           str "        List of two indices";
           str "    " ++ dq ++ dq ++ dq;
           str "    # Write your solution here";
           str "    pass";
           [];
           str "# Test your solution";
           str "if __name__ == " ++ dq ++ str "__main__" ++ dq ++ str ":";
           str "    nums = [2, 7, 11, 15]";
           str "    target = 9";
           str "    result = two_sum(nums, target)";
           str "    print(f" ++ dq ++ str "Indices: {result}" ++ dq ++ str ")" ];
     CodingQuestion.testCases :=
       [ {| TestCase.id := str "test-1";
            TestCase.input := str "nums = [2, 7, 11, 15], target = 9";
            TestCase.expectedOutput := str "[0, 1]";
            TestCase.isHidden := false;
            TestCase.weight := 1.0%float |};
         {| TestCase.id := str "test-2";
            TestCase.input := str "nums = [3, 2, 4], target = 6";
            TestCase.expectedOutput := str "[1, 2]";
            TestCase.isHidden := false;
            TestCase.weight := 1.0%float |};
         {| TestCase.id := str "test-3";
            TestCase.input := str "nums = [3, 3], target = 6";
            TestCase.expectedOutput := str "[0, 1]";
            TestCase.isHidden := false;
            TestCase.weight := 1.0%float |};
         {| TestCase.id := str "test-4";
            TestCase.input := str "nums = [1, 2, 3, 4, 5], target = 8";
            TestCase.expectedOutput := str "[2, 4]";
            TestCase.isHidden := true;
            TestCase.weight := 2.0%float |} ];
     CodingQuestion.timeLimit := Some 300%float;
     CodingQuestion.memoryLimit := Some 128%float |}.

(** ** Exceptions

    What a [throw] can carry, as far as the handlers look at it: an [Error]
    object with its message, [null], [undefined], or a value that has no
    [message] property. *)

Inductive Thrown :=
  | ErrorObject (message : jsstring)
  | NullValue
  | UndefinedValue
  | MessagelessValue.

(** How an evaluation ends.  For an [async] function [Returns] is the
    fulfilment of its promise and [Throws] its rejection; [await] turns a
    rejection into a throw. *)
Inductive Completion (A : Type) :=
  | Returns (a : A)
  | Throws (reason : Thrown).
Arguments Returns {A} a.
Arguments Throws {A} reason.

(** [error.message]: reading a property of [null] or [undefined] throws a
    TypeError (V8's wording), a missing property reads as [undefined]. *)
Definition get_message (error : Thrown) : Completion (option jsstring) :=
  match error with
  | ErrorObject message => Returns (Some message)
  | NullValue =>
      Throws (ErrorObject (str "Cannot read properties of null (reading 'message')"))
  | UndefinedValue =>
      Throws (ErrorObject (str "Cannot read properties of undefined (reading 'message')"))
  | MessagelessValue => Returns None
  end.

(** ** services/codeExecutionService.ts *)

Module CodeExecutionService.

Module ExecuteCodeRequest.
Record t := {
  code : jsstring;
  language : SupportedLanguage;
  input : option jsstring;
}.
End ExecuteCodeRequest.

Module RunTestsRequest.
Record t := {
  code : jsstring;
  language : SupportedLanguage;
  testCases : list TestCase.t;
}.
End RunTestsRequest.

(** How [await this.apiClient.post(...)] ends: a response with its data,
    an error that [axios.isAxiosError] accepts (with
    [error.response?.data?.message] and [error.message]), or anything
    else thrown. *)
Inductive PostOutcome :=
  | Response (data : ExecutionResult.t)
  | AxiosError (responseMessage : option jsstring) (message : jsstring)
  | OtherError (error : Thrown).

(** The back end as the service sees it. *)
Record Api := {
  post_run : ExecuteCodeRequest.t -> PostOutcome;
  post_test : RunTestsRequest.t -> PostOutcome;
}.

Definition failed (prefix : jsstring) (errorMessage : jsstring)
  : ExecutionResult.t :=
  {| ExecutionResult.success := false;
     ExecutionResult.output := str "";
     ExecutionResult.error := Some (prefix ++ errorMessage);
     ExecutionResult.executionTime := 0%float;
     ExecutionResult.memoryUsage := 0%float;
     ExecutionResult.testResults := None |}.

Definition executeCode (api : Api) (request : ExecuteCodeRequest.t)
  : Completion ExecutionResult.t :=
  match post_run api request with
  | Response data => Returns data
  | AxiosError responseMessage message =>
      let errorMessage := or_else responseMessage message in
      Returns (failed (str "Execution failed: ") errorMessage)
  | OtherError error => Throws error
  end.

Definition runTests (api : Api) (request : RunTestsRequest.t)
  : Completion ExecutionResult.t :=
  match post_test api request with
  | Response data => Returns data
  | AxiosError responseMessage message =>
      let errorMessage := or_else responseMessage message in
      Returns (failed (str "Test execution failed: ") errorMessage)
  | OtherError error => Throws error
  end.

(** How [await this.apiClient.post(...)] or [get(...)] ends for the other
    two calls, whose response data are not execution results. *)
Inductive HttpOutcome (A : Type) :=
  | HttpResponse (data : A)
  | HttpAxiosError (responseMessage : option jsstring) (message : jsstring)
  | HttpOtherError (error : Thrown).
Arguments HttpResponse {A} data.
Arguments HttpAxiosError {A} responseMessage message.
Arguments HttpOtherError {A} error.

(** [{ valid: boolean; errors?: string[] }]; an entry of [errors] is
    [undefined] when it was read from a value without a message. *)
Record Validation := {
  valid : bool;
  errors : option (list (option jsstring));
}.

Definition validateSyntax
    (post_validate : jsstring -> SupportedLanguage -> HttpOutcome Validation)
    (code : jsstring) (language : SupportedLanguage) : Completion Validation :=
  match post_validate code language with
  | HttpResponse data => Returns data
  | HttpAxiosError responseMessage message =>
      Returns {| valid := false;
                 errors := Some [Some (or_else responseMessage message)] |}
  | HttpOtherError error => Throws error
  end.

Record LanguageInfo := {
  info_id : SupportedLanguage;
  info_name : jsstring;
  info_version : jsstring;
  info_extensions : list jsstring;
}.

Definition defaultLanguages : list LanguageInfo :=
  [ {| info_id := str "python"; info_name := str "Python";
       info_version := str "3.11"; info_extensions := [str ".py"] |};
    {| info_id := str "javascript"; info_name := str "JavaScript";
       info_version := str "Node 18"; info_extensions := [str ".js"] |};
    {| info_id := str "typescript"; info_name := str "TypeScript";
       info_version := str "5.0"; info_extensions := [str ".ts"] |};
    {| info_id := str "java"; info_name := str "Java";
       info_version := str "17"; info_extensions := [str ".java"] |};
    {| info_id := str "cpp"; info_name := str "C++";
       info_version := str "GCC 11"; info_extensions := [str ".cpp"; str ".cc"] |};
    {| info_id := str "csharp"; info_name := str "C#";
       info_version := str ".NET 7"; info_extensions := [str ".cs"] |};
    {| info_id := str "go"; info_name := str "Go";
       info_version := str "1.21"; info_extensions := [str ".go"] |};
    {| info_id := str "rust"; info_name := str "Rust";
       info_version := str "1.70"; info_extensions := [str ".rs"] |} ].

(** [getSupportedLanguages]: every failure of the request is caught and
    answered with the default languages. *)
Definition getSupportedLanguages (get_languages : HttpOutcome (list LanguageInfo))
  : Completion (list LanguageInfo) :=
  match get_languages with
  | HttpResponse data => Returns data
  | HttpAxiosError _ _ | HttpOtherError _ => Returns defaultLanguages
  end.

End CodeExecutionService.

(** ** hooks/useCodeExecution.ts *)

Module UseCodeExecution.

(** The optional callbacks.  A callback is given by how its call ends. *)
Record Options := {
  onExecutionStart : option (unit -> Completion unit);
  onExecutionComplete : option (ExecutionResult.t -> Completion unit);
  onExecutionError : option (Thrown -> Completion unit);
}.

(** The three [useState] cells; [null] and [undefined] are both [None]. *)
Record State := {
  isExecuting : bool;
  executionResult : option ExecutionResult.t;
  error : option jsstring;
}.

(** Statements of the hook: they update the state and may throw. *)
Definition M (A : Type) : Type := State -> Completion A * State.

#[export] Instance M_ret : MRet M := fun _ a st => (Returns a, st).
#[export] Instance M_bind : MBind M :=
  fun _ _ k m st =>
    match m st with
    | (Returns a, st') => k a st'
    | (Throws reason, st') => (Throws reason, st')
    end.

Definition lift {A} (c : Completion A) : M A := fun st => (c, st).

(** [try { body } catch (err) { handler }] *)
Definition try_catch {A} (body : M A) (handler : Thrown -> M A) : M A :=
  fun st =>
    match body st with
    | (Returns a, st') => (Returns a, st')
    | (Throws err, st') => handler err st'
    end.

(** [... finally { cleanup }]: the cleanup runs on both exits and keeps
    the completion of the block unless it throws itself. *)
Definition try_finally {A} (block : M A) (cleanup : M unit) : M A :=
  fun st =>
    let '(completion, st') := block st in
    match cleanup st' with
    | (Returns _, st'') => (completion, st'')
    | (Throws reason, st'') => (Throws reason, st'')
    end.

Definition setIsExecuting (v : bool) : M unit :=
  fun st => (Returns (), {| isExecuting := v;
                            executionResult := executionResult st;
                            error := error st |}).

Definition setExecutionResult (v : option ExecutionResult.t) : M unit :=
  fun st => (Returns (), {| isExecuting := isExecuting st;
                            executionResult := v;
                            error := error st |}).

Definition setError (v : option jsstring) : M unit :=
  fun st => (Returns (), {| isExecuting := isExecuting st;
                            executionResult := executionResult st;
                            error := v |}).

(** [callback?.(argument)] *)
Definition call_optional {A} (callback : option (A -> Completion unit))
    (argument : A) : M unit :=
  match callback with
  | Some f => lift (f argument)
  | None => mret ()
  end.

Definition errorResult (message : option jsstring) : ExecutionResult.t :=
  {| ExecutionResult.success := false;
     ExecutionResult.output := str "";
     ExecutionResult.error := message;
     ExecutionResult.executionTime := 0%float;
     ExecutionResult.memoryUsage := 0%float;
     ExecutionResult.testResults := None |}.

(** The [catch] block shared by [executeCode] and [runTests]. *)
Definition on_catch (options : Options) (err : Thrown) : M ExecutionResult.t :=
  message ← lift (get_message err);
  setError message;;
  call_optional (onExecutionError options) err;;
  setExecutionResult (Some (errorResult message));;
  mret (errorResult message).

Definition executeCode (options : Options) (api : CodeExecutionService.Api)
    (code : jsstring) (language : SupportedLanguage) (input : option jsstring)
  : M ExecutionResult.t :=
  setIsExecuting true;;
  setError None;;
  call_optional (onExecutionStart options) ();;
  try_finally
    (try_catch
       (result ← lift (CodeExecutionService.executeCode api
                         {| CodeExecutionService.ExecuteCodeRequest.code := code;
                            CodeExecutionService.ExecuteCodeRequest.language := language;
                            CodeExecutionService.ExecuteCodeRequest.input := input |});
        setExecutionResult (Some result);;
        call_optional (onExecutionComplete options) result;;
        mret result)
       (on_catch options))
    (setIsExecuting false).

Definition runTests (options : Options) (api : CodeExecutionService.Api)
    (code : jsstring) (language : SupportedLanguage)
    (testCases : list TestCase.t)
  : M ExecutionResult.t :=
  setIsExecuting true;;
  setError None;;
  call_optional (onExecutionStart options) ();;
  try_finally
    (try_catch
       (result ← lift (CodeExecutionService.runTests api
                         {| CodeExecutionService.RunTestsRequest.code := code;
                            CodeExecutionService.RunTestsRequest.language := language;
                            CodeExecutionService.RunTestsRequest.testCases := testCases |});
        setExecutionResult (Some result);;
        call_optional (onExecutionComplete options) result;;
        mret result)
       (on_catch options))
    (setIsExecuting false).

(** [validateSyntax]: no state is touched. *)
Definition validateSyntax
    (post_validate : jsstring -> SupportedLanguage
                     -> CodeExecutionService.HttpOutcome CodeExecutionService.Validation)
    (code : jsstring) (language : SupportedLanguage)
  : Completion CodeExecutionService.Validation :=
  match CodeExecutionService.validateSyntax post_validate code language with
  | Returns v => Returns v
  | Throws err =>
      match get_message err with
      | Returns message =>
          Returns {| CodeExecutionService.valid := false;
                     CodeExecutionService.errors := Some [message] |}
      | Throws reason => Throws reason
      end
  end.

Definition clearResults : M unit :=
  setExecutionResult None;;
  setError None.

End UseCodeExecution.

(** ** backend/docker/execution/Dockerfile.{go,cpp,java,javascript}

    The four images append the same six lines for the user [coderunner] to
    /etc/security/limits.conf. *)

Module Dockerfile.

Inductive LimitType := soft | hard.
Inductive LimitItem := nproc | nofile | fsize.

#[export] Instance LimitType_eq_dec : EqDecision LimitType.
Proof. solve_decision. Defined.
#[export] Instance LimitItem_eq_dec : EqDecision LimitItem.
Proof. solve_decision. Defined.

Record LimitsLine := {
  domain : string;
  type : LimitType;
  item : LimitItem;
  value : Z;
}.

Definition limits_conf : list LimitsLine :=
  [ {| domain := "coderunner"; type := soft; item := nproc; value := 16 |};
    {| domain := "coderunner"; type := hard; item := nproc; value := 16 |};
    {| domain := "coderunner"; type := soft; item := nofile; value := 32 |};
    {| domain := "coderunner"; type := hard; item := nofile; value := 32 |};
    {| domain := "coderunner"; type := soft; item := fsize; value := 10485760 |};
    {| domain := "coderunner"; type := hard; item := fsize; value := 10485760 |} ].

(** The limit in force for a user: the last line that names it. *)
Definition limit (user : string) (ty : LimitType) (it : LimitItem) : option Z :=
  value <$> last (List.filter
                    (fun line => bool_decide (domain line = user
                                              /\ type line = ty /\ item line = it))
                    limits_conf).

End Dockerfile.

(** * The execution engine

    The front end posts to [/api/v1/execution/...]; the service behind it
    (the Python back end described in EXECUTION_SERVICE_IMPLEMENTATION.md)
    is not among the sources.  This module models it from the specification
    of the engine: data model (section 3), scanner, provisioner, orchestrator
    and aggregator (section 4), cancellation (section 5) and the error
    taxonomy (section 7). *)

Module Engine.

(** Modelled from the spec: the error taxonomy of the missing back end
    (section 7). *)
Inductive FailureKind :=
  | ValidationError | SecurityViolation | CompileError
  | RuntimeError | Timeout | MemoryExceeded | InternalError.

(** Modelled from the spec: the security levels of the missing scanner
    (section 4.2). *)
Inductive SecurityLevel := LOW | MEDIUM | HIGH | MAXIMUM.

(** Modelled from the spec: the records of the data model of the missing
    back end (section 3), this one and the five that follow.  A weight is
    an exact rational; a reported case carries the expected output that
    section 4.5 redacts. *)
Record ResourceLimits := {
  memory_mb : Z;
  cpu_time_seconds : Z;
  wall_time_seconds : Z;
  max_processes : Z;
  max_open_files : Z;
  max_output_bytes : Z;
}.

Record TestCase := {
  case_id : string;
  input : string;
  expected_output : string;
  is_hidden : bool;
  weight : Q;
}.

Record LanguageProfile := {
  profile_id : string;
  compile_command : option string;
  run_command : string;
  image : string;
  default_limits : ResourceLimits;
  disallowed_patterns : list string;
}.

Record ExecutionRequest := {
  source_code : string;
  language_id : string;
  test_cases : list TestCase;
  resource_limits : option ResourceLimits;
  security_level : SecurityLevel;
}.

Record TestCaseResult := {
  test_case_id : string;
  passed : bool;
  actual_output : option string;
  reported_expected_output : option string;
  execution_time_ms : Z;
  case_failure_kind : option FailureKind;
  error_detail : option string;
}.

Record ExecutionResult := {
  success : bool;
  failure_kind : option FailureKind;
  case_results : list TestCaseResult;
  score : Q;
}.

(** Modelled from the spec: the clamping of resource limits, which the
    missing back end performs ("Effective limits = min(requested, platform
    ceiling) per field"). *)
Definition effective_limits (requested ceiling : ResourceLimits) : ResourceLimits :=
  {| memory_mb := Z.min (memory_mb requested) (memory_mb ceiling);
     cpu_time_seconds := Z.min (cpu_time_seconds requested) (cpu_time_seconds ceiling);
     wall_time_seconds := Z.min (wall_time_seconds requested) (wall_time_seconds ceiling);
     max_processes := Z.min (max_processes requested) (max_processes ceiling);
     max_open_files := Z.min (max_open_files requested) (max_open_files ceiling);
     max_output_bytes := Z.min (max_output_bytes requested) (max_output_bytes ceiling) |}.

(** Modelled from the spec: the limits a request asks for, its optional
    override or else the defaults of the language profile (section 3). *)
Definition requested_limits (profile : LanguageProfile) (request : ExecutionRequest)
  : ResourceLimits :=
  default (default_limits profile) (resource_limits request).

(** The ceiling that the execution images put on the user [coderunner]:
    the hard limits of limits.conf for processes, open files and file
    size; the images set none for memory and time, which are given. *)
Definition image_ceiling (memory cpu wall : Z) : ResourceLimits :=
  {| memory_mb := memory;
     cpu_time_seconds := cpu;
     wall_time_seconds := wall;
     max_processes :=
       default 0%Z (Dockerfile.limit "coderunner" Dockerfile.hard Dockerfile.nproc);
     max_open_files :=
       default 0%Z (Dockerfile.limit "coderunner" Dockerfile.hard Dockerfile.nofile);
     max_output_bytes :=
       default 0%Z (Dockerfile.limit "coderunner" Dockerfile.hard Dockerfile.fsize) |}.

(** *** The world outside the orchestrator *)

Definition SandboxHandle := nat.

(** Modelled from the spec: the verdict of the missing scanner (section
    4.2).  Its pattern lists are not given, so the verdict is taken from
    the world. *)
Record Verdict := { allowed : bool; violations : list string }.

Inductive CompileOutcome :=
  | Compiled
  | CompileFailed (diagnostics : string).

(** Modelled from the spec: how the process of one test case ends
    (section 4.4). *)
Inductive RunOutcome :=
  | Exited (status : Z) (stdout stderr : string) (time_ms : Z)
  | WallTimeExceeded
  | CpuTimeExceeded
  | MemoryCeilingExceeded.

(** Modelled from the spec: what can interrupt a step from outside, the
    cancel signal (section 5) or a crash of the isolation layer (section
    7). *)
Inductive Disturbance := Cancel | Crash.

(** Everything the orchestrator does not decide itself: the validation
    of the request, the scanner, [acquire], the compiler and the test
    processes. *)
Record World := {
  well_formed : bool;
  scan : Verdict;
  provision : ResourceLimits -> option SandboxHandle;
  compile_step : Disturbance + CompileOutcome;
  run_step : nat -> Disturbance + RunOutcome;
}.

(** *** Judging one test case *)

Definition newline : string := String (ascii_of_nat 10) EmptyString.

Definition is_trailing_space (c : ascii) : bool :=
  let n := nat_of_ascii c in
  (n =? 32)%nat || (n =? 9)%nat || (n =? 10)%nat || (n =? 13)%nat.

Fixpoint drop_spaces (l : list ascii) : list ascii :=
  match l with
  | [] => []
  | c :: l' => if is_trailing_space c then drop_spaces l' else l
  end.

(** Modelled from the spec: the normalization of the missing output
    comparison (section 4.4): trailing white space and newlines are
    dropped, nothing else. *)
Definition normalize (s : string) : string :=
  string_of_list_ascii (rev (drop_spaces (rev (list_ascii_of_string s)))).

Definition classify (outcome : RunOutcome) : option FailureKind :=
  match outcome with
  | Exited status _ _ _ => if (status =? 0)%Z then None else Some RuntimeError
  | WallTimeExceeded | CpuTimeExceeded => Some Timeout
  | MemoryCeilingExceeded => Some MemoryExceeded
  end.

Definition timed_out (outcome : RunOutcome) : bool :=
  match outcome with
  | WallTimeExceeded | CpuTimeExceeded => true
  | _ => false
  end.

(** Modelled from the spec: the per-case record of the missing
    orchestrator (section 4.4: time and memory violations, non-zero exit
    status with captured stderr, exact match after normalizing). *)
Definition judge (tc : TestCase) (outcome : RunOutcome) : TestCaseResult :=
  match outcome with
  | Exited status stdout stderr time_ms =>
      {| test_case_id := case_id tc;
         passed := (status =? 0)%Z
                   && bool_decide (normalize stdout = normalize (expected_output tc));
         actual_output := Some stdout;
         reported_expected_output := Some (expected_output tc);
         execution_time_ms := time_ms;
         case_failure_kind := classify outcome;
         error_detail := if (status =? 0)%Z then None else Some stderr |}
  | _ =>
      {| test_case_id := case_id tc;
         passed := false;
         actual_output := None;
         reported_expected_output := Some (expected_output tc);
         execution_time_ms := 0;
         case_failure_kind := classify outcome;
         error_detail := None |}
  end.

(** Modelled from the spec: a case that a cancellation left out, "marked
    not-run" (section 5). *)
Definition not_run (tc : TestCase) : TestCaseResult :=
  {| test_case_id := case_id tc;
     passed := false;
     actual_output := None;
     reported_expected_output := Some (expected_output tc);
     execution_time_ms := 0;
     case_failure_kind := None;
     error_detail := Some "not run"%string |}.

(** *** The orchestrator *)

(** Modelled from the spec: the states of the missing orchestrator
    (section 4.4). *)
Inductive Phase :=
  | Queued | Scanning | Rejected | Provisioning | Compiling
  | Running (i : nat) | Aggregating | Completed.

(** What the orchestrator does to the world, in order. *)
Inductive Event :=
  | Acquired (handle : SandboxHandle) (limits : ResourceLimits)
  | Released (handle : SandboxHandle)
  | CompileStarted
  | CaseStarted (i : nat)
  | ProcessGroupKilled (i : nat).

Record Machine := {
  phase : Phase;
  sandbox : option SandboxHandle;
  blocking : option FailureKind;
  results : list TestCaseResult;
  trace : list Event;
}.

Definition initial : Machine :=
  {| phase := Queued; sandbox := None; blocking := None;
     results := []; trace := [] |}.

Definition goto (p : Phase) (m : Machine) : Machine :=
  {| phase := p; sandbox := sandbox m; blocking := blocking m;
     results := results m; trace := trace m |}.

Definition emit (e : Event) (m : Machine) : Machine :=
  {| phase := phase m; sandbox := sandbox m; blocking := blocking m;
     results := results m; trace := trace m ++ [e] |}.

Definition block (k : FailureKind) (m : Machine) : Machine :=
  {| phase := phase m; sandbox := sandbox m; blocking := Some k;
     results := results m; trace := trace m |}.

Definition record (rs : list TestCaseResult) (m : Machine) : Machine :=
  {| phase := phase m; sandbox := sandbox m; blocking := blocking m;
     results := results m ++ rs; trace := trace m |}.

(** Modelled from the spec: [release(handle)] of the missing provisioner
    (section 4.3), then on to aggregation. *)
Definition teardown (m : Machine) : Machine :=
  match sandbox m with
  | Some h =>
      {| phase := Aggregating; sandbox := None; blocking := blocking m;
         results := results m; trace := trace m ++ [Released h] |}
  | None => goto Aggregating m
  end.

(** Modelled from the spec: one transition of the state machine of the
    missing orchestrator (section 4.4), with release on every way out of
    a provisioned sandbox (section 4.3) and cancellation as in section 5. *)
Definition step (ceiling : ResourceLimits) (profile : LanguageProfile)
    (request : ExecutionRequest) (w : World) (m : Machine) : Machine :=
  match phase m with
  | Queued =>
      if well_formed w then goto Scanning m
      else goto Rejected (block ValidationError m)
  | Scanning =>
      if allowed (scan w) then goto Provisioning m
      else goto Rejected (block SecurityViolation m)
  | Rejected => m
  | Provisioning =>
      let limits := effective_limits (requested_limits profile request) ceiling in
      match provision w limits with
      | Some h =>
          {| phase := match compile_command profile with
                      | Some _ => Compiling
                      | None => Running 0
                      end;
             sandbox := Some h; blocking := blocking m;
             results := results m;
             trace := trace m ++ [Acquired h limits] |}
      | None => goto Aggregating (block InternalError m)
      end
  | Compiling =>
      let m := emit CompileStarted m in
      match compile_step w with
      | inr Compiled => goto (Running 0) m
      | inr (CompileFailed _) => teardown (block CompileError m)
      | inl Cancel => teardown (record (not_run <$> test_cases request) m)
      | inl Crash => teardown (block InternalError m)
      end
  | Running i =>
      match test_cases request !! i with
      | None => teardown m
      | Some tc =>
          let m := emit (CaseStarted i) m in
          match run_step w i with
          | inr outcome =>
              let m := if timed_out outcome then emit (ProcessGroupKilled i) m else m in
              goto (Running (S i)) (record [judge tc outcome] m)
          | inl Cancel =>
              teardown (record (not_run <$> drop i (test_cases request))
                          (emit (ProcessGroupKilled i) m))
          | inl Crash => teardown (block InternalError m)
          end
      end
  | Aggregating => goto Completed m
  | Completed => m
  end.

(** Enough transitions to reach a final phase from [Queued]. *)
Definition fuel (request : ExecutionRequest) : nat :=
  length (test_cases request) + 6.

Definition run (ceiling : ResourceLimits) (profile : LanguageProfile)
    (request : ExecutionRequest) (w : World) (n : nat) : Machine :=
  Nat.iter n (step ceiling profile request w) initial.

(** *** The aggregator *)

(** One pass over the cases and their results: the weight earned and the
    weight at stake. *)
Definition tally (acc : Q * Q) (pair : TestCase * TestCaseResult) : Q * Q :=
  let '(earned, at_stake) := acc in
  let '(tc, r) := pair in
  ((if passed r then earned + weight tc else earned)%Q, (at_stake + weight tc)%Q).

(** Modelled from the spec: the weighted score of the missing aggregator,
    "score = Σ(weight_i · passed_i) / Σ(weight_i)" (a zero total gives 0). *)
Definition weighted_score (case_results : list TestCaseResult)
    (test_cases : list TestCase) : Q :=
  let '(earned, at_stake) := fold_left tally (zip test_cases case_results) (0%Q, 0%Q) in
  (earned / at_stake)%Q.

(** Modelled from the spec: the redaction of the missing aggregator
    (section 4.5): the outputs of a hidden case are left out for a caller
    without grading privilege. *)
Definition redact (caller_can_see_hidden : bool) (tc : TestCase) (r : TestCaseResult)
  : TestCaseResult :=
  if is_hidden tc && negb caller_can_see_hidden then
    {| test_case_id := test_case_id r;
       passed := passed r;
       actual_output := None;
       reported_expected_output := None;
       execution_time_ms := execution_time_ms r;
       case_failure_kind := case_failure_kind r;
       error_detail := error_detail r |}
  else r.

(** Modelled from the spec: [aggregate] of the missing aggregator (section
    4.5).  A blocking failure (validation, scanner, compile, internal)
    becomes the failure kind of the request, with no case results and
    score 0; otherwise the cases are scored and hidden ones redacted. *)
Definition aggregate (blocking : option FailureKind)
    (case_results : list TestCaseResult) (test_cases : list TestCase)
    (caller_can_see_hidden : bool) : ExecutionResult :=
  match blocking with
  | Some k =>
      {| success := false; failure_kind := Some k;
         case_results := []; score := 0%Q |}
  | None =>
      {| success := true; failure_kind := None;
         case_results := zip_with (redact caller_can_see_hidden) test_cases case_results;
         score := weighted_score case_results test_cases |}
  end.

(** Modelled from the spec: [execute] of the missing engine (section 6):
    the report, and what was done to get it. *)
Definition execute (ceiling : ResourceLimits) (profile : LanguageProfile)
    (request : ExecutionRequest) (w : World) (caller_can_see_hidden : bool)
  : ExecutionResult * list Event :=
  let m := run ceiling profile request w (fuel request) in
  (aggregate (blocking m) (results m) (test_cases request) caller_can_see_hidden,
   trace m).

End Engine.

(** ** Vocabulary of the statements *)

(** The ids that [SUPPORTED_LANGUAGES] registers. *)
Definition registered (languageId : jsstring) : Prop :=
  languageId ∈ (LanguageConfig.id <$> SUPPORTED_LANGUAGES).

(** What of a test case the mock run of the coding interface reads. *)
Definition shown_part (testCase : TestCase.t) : jsstring * jsstring :=
  (TestCase.id testCase, TestCase.expectedOutput testCase).

(** A callback that is absent or returns without throwing. *)
Definition returns_normally {A} (callback : option (A -> Completion unit))
    (argument : A) : Prop :=
  match callback with
  | Some f => f argument = Returns ()
  | None => True
  end.

(** The sandboxes that a trace acquires and releases, and the test cases it
    starts, in order of occurrence. *)
Definition acquisitions (tr : list Engine.Event) : list Engine.SandboxHandle :=
  omap (fun e => match e with Engine.Acquired h _ => Some h | _ => None end) tr.

Definition releases (tr : list Engine.Event) : list Engine.SandboxHandle :=
  omap (fun e => match e with Engine.Released h => Some h | _ => None end) tr.

Definition started_cases (tr : list Engine.Event) : list nat :=
  omap (fun e => match e with Engine.CaseStarted i => Some i | _ => None end) tr.

Definition final (p : Engine.Phase) : Prop :=
  p = Engine.Rejected \/ p = Engine.Completed.

(** An upper bound on the transitions left before a final phase, for a
    request with [n] test cases. *)
Definition remaining (n : nat) (p : Engine.Phase) : nat :=
  match p with
  | Engine.Queued => n + 6
  | Engine.Scanning => n + 5
  | Engine.Provisioning => n + 4
  | Engine.Compiling => n + 3
  | Engine.Running i => (n - i) + 2
  | Engine.Aggregating => 1
  | Engine.Rejected | Engine.Completed => 0
  end.

(** What holds of the machine in each phase. *)
Definition consistent (ceiling : Engine.ResourceLimits)
    (profile : Engine.LanguageProfile) (request : Engine.ExecutionRequest)
    (w : Engine.World) (m : Engine.Machine) : Prop :=
  let limits :=
    Engine.effective_limits (Engine.requested_limits profile request) ceiling in
  let n := length (Engine.test_cases request) in
  let fresh :=
    Engine.sandbox m = None /\ Engine.trace m = []
    /\ Engine.blocking m = None /\ Engine.results m = [] in
  let cleared :=
    Engine.well_formed w = true /\ Engine.allowed (Engine.scan w) = true in
  match Engine.phase m with
  | Engine.Queued => fresh
  | Engine.Scanning => fresh /\ Engine.well_formed w = true
  | Engine.Provisioning => fresh /\ cleared
  | Engine.Rejected =>
      Engine.sandbox m = None /\ Engine.trace m = []
      /\ (Engine.well_formed w = false \/ Engine.allowed (Engine.scan w) = false)
      /\ (Engine.blocking m = Some Engine.ValidationError
          \/ Engine.blocking m = Some Engine.SecurityViolation)
  | Engine.Compiling =>
      cleared
      /\ exists h, Engine.provision w limits = Some h
           /\ Engine.sandbox m = Some h
           /\ Engine.trace m = [Engine.Acquired h limits]
           /\ Engine.blocking m = None /\ Engine.results m = []
  | Engine.Running i =>
      cleared
      /\ exists h, Engine.provision w limits = Some h
           /\ Engine.sandbox m = Some h
           /\ acquisitions (Engine.trace m) = [h]
           /\ releases (Engine.trace m) = []
           /\ Engine.blocking m = None
           /\ length (Engine.results m) = i /\ i <= n
           /\ Engine.test_case_id <$> Engine.results m
              = Engine.case_id <$> take i (Engine.test_cases request)
  | Engine.Aggregating | Engine.Completed =>
      cleared
      /\ Engine.sandbox m = None
      /\ match Engine.provision w limits with
         | Some h => acquisitions (Engine.trace m) = [h]
                     /\ releases (Engine.trace m) = [h]
         | None => Engine.trace m = []
                   /\ Engine.blocking m = Some Engine.InternalError
         end
      /\ (Engine.blocking m = None ->
          length (Engine.results m) = n
          /\ Engine.test_case_id <$> Engine.results m
             = Engine.case_id <$> Engine.test_cases request)
  end.



Definition Qsum (l : list Q) : Q := foldr Qplus 0%Q l.

Definition indicator (b : bool) : Q := if b then 1%Q else 0%Q.

(** The weighted pass rate of the specification:
    Σ(weight_i · passed_i) / Σ(weight_i). *)
Definition weighted_pass_rate (tcs : list Engine.TestCase)
    (rs : list Engine.TestCaseResult) : Q :=
  (Qsum (zip_with (fun tc r => Engine.weight tc * indicator (Engine.passed r)) tcs rs)
   / Qsum (Engine.weight <$> tcs))%Q.

(** *** The scenarios of the specification *)

Definition python_profile : Engine.LanguageProfile :=
  {| Engine.profile_id := "python";
     Engine.compile_command := None;
     Engine.run_command := "python3 solution.py";
     Engine.image := "assessment-python-executor";
     Engine.default_limits :=
       {| Engine.memory_mb := 128; Engine.cpu_time_seconds := 5;
          Engine.wall_time_seconds := 10; Engine.max_processes := 16;
          Engine.max_open_files := 32; Engine.max_output_bytes := 10485760 |};
     Engine.disallowed_patterns := [] |}.

Definition cpp_profile : Engine.LanguageProfile :=
  {| Engine.profile_id := "cpp";
     Engine.compile_command := Some "g++ -o solution solution.cpp"%string;
     Engine.run_command := "./solution";
     Engine.image := "assessment-cpp-executor";
     Engine.default_limits := Engine.default_limits python_profile;
     Engine.disallowed_patterns := [] |}.

Definition scenario_ceiling : Engine.ResourceLimits := Engine.image_ceiling 256 10 20.

(** Scenario B: weights 1.0 and 3.0. *)
Definition scenario_B_request : Engine.ExecutionRequest :=
  {| Engine.source_code := "print(int(input()) + int(input()))";
     Engine.language_id := "python";
     Engine.test_cases :=
       [ {| Engine.case_id := "light"; Engine.input := String.append "5" (String.append Engine.newline "3");
            Engine.expected_output := "8"; Engine.is_hidden := false;
            Engine.weight := 1 |};
         {| Engine.case_id := "heavy"; Engine.input := String.append "5" (String.append Engine.newline "4");
            Engine.expected_output := "10"; Engine.is_hidden := true;
            Engine.weight := 3 |} ];
     Engine.resource_limits := None;
     Engine.security_level := Engine.MEDIUM |}.

(** A world that lets the request through and gives it sandbox 7. *)
Definition calm_world (compile : Engine.CompileOutcome)
    (outcomes : nat -> Engine.RunOutcome) : Engine.World :=
  {| Engine.well_formed := true;
     Engine.scan := {| Engine.allowed := true; Engine.violations := [] |};
     Engine.provision := fun _ => Some 7%nat;
     Engine.compile_step := inr compile;
     Engine.run_step := fun i => inr (outcomes i) |}.

(** The program prints 8 followed by a newline on every input. *)
Definition scenario_B_world : Engine.World :=
  calm_world Engine.Compiled
    (fun _ => Engine.Exited 0 (String.append "8" Engine.newline) "" 12).

(** Scenario C: the first case runs out of wall-clock time, the second
    one passes. *)
Definition scenario_C_world : Engine.World :=
  calm_world Engine.Compiled
    (fun i => match i with
              | O => Engine.WallTimeExceeded
              | _ => Engine.Exited 0 "10" "" 9
              end).

(** Scenario D: the source does not compile. *)
Definition scenario_D_world : Engine.World :=
  calm_world (Engine.CompileFailed "solution.cpp:1:1: error: expected unqualified-id")
    (fun _ => Engine.Exited 0 "" "" 0).

Definition scenario_D_request : Engine.ExecutionRequest :=
  {| Engine.source_code := "int main( { return 0; }";
     Engine.language_id := "cpp";
     Engine.test_cases := Engine.test_cases scenario_B_request;
     Engine.resource_limits :=
       Some {| Engine.memory_mb := 4096; Engine.cpu_time_seconds := 2;
               Engine.wall_time_seconds := 2; Engine.max_processes := 64;
               Engine.max_open_files := 8; Engine.max_output_bytes := 1024 |};
     Engine.security_level := Engine.HIGH |}.

(** ** components/coding/CodeExecutionPanel.tsx: the two buttons *)

Module CodeExecutionPanelActions.

(** The click handlers of the two buttons.  [onRunCode] and [onRunTests]
    are the handlers that the parent passed, acting on the parent's
    state; a rejection is logged and the tab stays. *)
Definition handleRunCode {S} (onRunCode : S -> Completion ExecutionResult.t * S)
    (parent : S) (activeTab : nat) : S * nat :=
  match onRunCode parent with
  | (Returns _, parent') => (parent', 0%nat)
  | (Throws _, parent') => (parent', activeTab)
  end.

Definition handleRunTests {S} (onRunTests : S -> Completion ExecutionResult.t * S)
    (parent : S) (activeTab : nat) : S * nat :=
  match onRunTests parent with
  | (Returns _, parent') => (parent', 1%nat)
  | (Throws _, parent') => (parent', activeTab)
  end.

(** The handlers that [CodingInterface] passes to its panel.  The parent
    state is the component state with the position of the next draw of
    [Math.random]. *)
Definition onRunCode (draws : nat -> float)
    (parent : CodingInterface.State * nat)
  : Completion ExecutionResult.t * (CodingInterface.State * nat) :=
  let '(result, st, pos) := CodingInterface.handleRunCode parent.1 draws parent.2 in
  (Returns result, (st, pos)).

Definition onRunTests (question : CodingQuestion.t) (draws : nat -> float)
    (parent : CodingInterface.State * nat)
  : Completion ExecutionResult.t * (CodingInterface.State * nat) :=
  let '(result, st, pos) :=
    CodingInterface.handleRunTests question parent.1 draws parent.2 in
  (Returns result, (st, pos)).

End CodeExecutionPanelActions.

(** ** components/coding/LanguageSelector.tsx *)

Module LanguageSelector.

(** The menu items: [allowedLanguages] is an optional prop, and an array,
    empty or not, is truthy. *)
Definition availableLanguages (allowedLanguages : option (list SupportedLanguage))
  : list LanguageConfig.t :=
  match allowedLanguages with
  | Some allowed =>
      List.filter (fun lang => bool_decide (LanguageConfig.id lang ∈ allowed))
        SUPPORTED_LANGUAGES
  | None => SUPPORTED_LANGUAGES
  end.

End LanguageSelector.

(** ** components/coding/CodingInterface.tsx: the auto-save effect

    The effect of [useEffect(..., [code, onAutoSave])] with its cleanup, the
    callback of its timer and [handleSave], as transitions on the cells
    they use.  A live timer is given by the code that its callback
    captured; [saved] lists the arguments of the calls of [onAutoSave]. *)

Module AutoSave.

Record State := {
  code : jsstring;
  lastSavedCodeRef : jsstring;
  timer : option jsstring;
  hasUnsavedChanges : bool;
  saved : list jsstring;
}.

(** After the first render: the effect has run with
    [code === lastSavedCodeRef.current]. *)
Definition mounted (code : jsstring) : State :=
  {| code := code; lastSavedCodeRef := code; timer := None;
     hasUnsavedChanges := false; saved := [] |}.

(** The cleanup of the previous run, [clearTimeout], then the body. *)
Definition effect (onAutoSave : bool) (st : State) : State :=
  if bool_decide (code st ≠ lastSavedCodeRef st) && onAutoSave then
    {| code := code st; lastSavedCodeRef := lastSavedCodeRef st;
       timer := Some (code st);
       hasUnsavedChanges := true; saved := saved st |}
  else
    {| code := code st; lastSavedCodeRef := lastSavedCodeRef st;
       timer := None;
       hasUnsavedChanges := hasUnsavedChanges st; saved := saved st |}.

Inductive Event :=
  | CodeSet (newCode : jsstring)
  | OnAutoSaveChanged
  | TimerFired
  | SaveClicked.

(** [CodeSet]: [setCode] with the value the cell already holds does not
    render again, and the effect does not run.  [OnAutoSaveChanged]: the
    parent passed another function.  [TimerFired]: two seconds went by
    with the timer alive.  [SaveClicked]: [handleSave] with
    [onCodeSubmit] given. *)
Definition step (onAutoSave : bool) (st : State) (e : Event) : State :=
  match e with
  | CodeSet newCode =>
      if bool_decide (newCode = code st) then st
      else effect onAutoSave
             {| code := newCode; lastSavedCodeRef := lastSavedCodeRef st;
                timer := timer st; hasUnsavedChanges := hasUnsavedChanges st;
                saved := saved st |}
  | OnAutoSaveChanged => effect onAutoSave st
  | TimerFired =>
      match timer st with
      | Some captured =>
          {| code := code st; lastSavedCodeRef := captured; timer := None;
             hasUnsavedChanges := false; saved := saved st ++ [captured] |}
      | None => st
      end
  | SaveClicked =>
      {| code := code st; lastSavedCodeRef := lastSavedCodeRef st;
         timer := timer st; hasUnsavedChanges := false; saved := saved st |}
  end.

Definition run (onAutoSave : bool) (st : State) (events : list Event) : State :=
  foldl (step onAutoSave) st events.

End AutoSave.

(** ** services/codeExecutionService.ts: the interceptors *)

Module ApiClient.

(** [localStorage] and the last value assigned to
    [window.location.href]. *)
Record Browser := {
  localStorage : gmap jsstring jsstring;
  navigatedTo : option jsstring;
}.

(** The request interceptor: the headers of the outgoing request. *)
Definition onRequest (browser : Browser) (headers : gmap jsstring jsstring)
  : gmap jsstring jsstring :=
  match localStorage browser !! str "authToken" with
  | Some token =>
      if truthy token
      then <[str "Authorization" := str "Bearer " ++ token]> headers
      else headers
  | None => headers
  end.

(** The response interceptor on an error with [error.response?.status];
    the error is passed on in every case. *)
Definition onResponseError (status : option nat) (browser : Browser) : Browser :=
  if bool_decide (status = Some 401%nat) then
    {| localStorage := delete (str "authToken") (localStorage browser);
       navigatedTo := Some (str "/login") |}
  else browser.

End ApiClient.

(** ** store/slices/authSlice.ts *)

Module AuthSlice.

Record User := {
  id : float;
  email : jsstring;
  role : jsstring;
  created_at : jsstring;
  last_login : option jsstring;
}.

Record AuthState := {
  user : option User;
  token : option jsstring;
  refreshToken : option jsstring;
  isAuthenticated : bool;
  isLoading : bool;
  error : option jsstring;
}.

Record AuthResponse := {
  response_user : User;
  access_token : jsstring;
  refresh_token : jsstring;
  token_type : jsstring;
}.

Definition initialState (localStorage : gmap jsstring jsstring) : AuthState :=
  {| user := None;
     token := localStorage !! str "access_token";
     refreshToken := localStorage !! str "refresh_token";
     isAuthenticated := false;
     isLoading := false;
     error := None |}.

(** The actions that the slice handles; a rejected thunk carries the
    value given to [rejectWithValue], if any. *)
Inductive Action :=
  | logout
  | clearError
  | setCredentials (payload : AuthResponse)
  | loginUser_pending
  | loginUser_fulfilled (payload : AuthResponse)
  | loginUser_rejected (payload : option jsstring)
  | registerUser_pending
  | registerUser_fulfilled
  | registerUser_rejected (payload : option jsstring)
  | refreshToken_pending
  | refreshToken_fulfilled (payload : AuthResponse)
  | refreshToken_rejected
  | getCurrentUser_pending
  | getCurrentUser_fulfilled (payload : User)
  | getCurrentUser_rejected
  | requestPasswordReset_pending
  | requestPasswordReset_fulfilled
  | requestPasswordReset_rejected (payload : option jsstring)
  | resetPassword_pending
  | resetPassword_fulfilled
  | resetPassword_rejected (payload : option jsstring).

Definition signedOut (st : AuthState) (err : option jsstring) : AuthState :=
  {| user := None; token := None; refreshToken := None;
     isAuthenticated := false; isLoading := isLoading st; error := err |}.

Definition signedIn (st : AuthState) (payload : AuthResponse)
    (loading : bool) (err : option jsstring) : AuthState :=
  {| user := Some (response_user payload);
     token := Some (access_token payload);
     refreshToken := Some (refresh_token payload);
     isAuthenticated := true; isLoading := loading; error := err |}.

Definition loading (st : AuthState) : AuthState :=
  {| user := user st; token := token st; refreshToken := refreshToken st;
     isAuthenticated := isAuthenticated st; isLoading := true; error := None |}.

Definition settled (st : AuthState) (err : option jsstring) : AuthState :=
  {| user := user st; token := token st; refreshToken := refreshToken st;
     isAuthenticated := isAuthenticated st; isLoading := false; error := err |}.

Definition clearTokens (localStorage : gmap jsstring jsstring)
  : gmap jsstring jsstring :=
  delete (str "refresh_token") (delete (str "access_token") localStorage).

(** The reducers and extra reducers, with what three of them do to
    [localStorage]. *)
Definition reducer (s : AuthState * gmap jsstring jsstring) (action : Action)
  : AuthState * gmap jsstring jsstring :=
  let '(st, localStorage) := s in
  match action with
  | logout => (signedOut st None, clearTokens localStorage)
  | clearError =>
      ({| user := user st; token := token st; refreshToken := refreshToken st;
          isAuthenticated := isAuthenticated st; isLoading := isLoading st;
          error := None |}, localStorage)
  | setCredentials payload => (signedIn st payload (isLoading st) None, localStorage)
  | loginUser_pending => (loading st, localStorage)
  | loginUser_fulfilled payload => (signedIn st payload false None, localStorage)
  | loginUser_rejected payload =>
      ({| user := user st; token := token st; refreshToken := refreshToken st;
          isAuthenticated := false; isLoading := false; error := payload |},
       localStorage)
  | registerUser_pending => (loading st, localStorage)
  | registerUser_fulfilled => (settled st None, localStorage)
  | registerUser_rejected payload => (settled st payload, localStorage)
  | refreshToken_pending => (st, localStorage)
  | refreshToken_fulfilled payload =>
      (signedIn st payload (isLoading st) (error st), localStorage)
  | refreshToken_rejected => (signedOut st (error st), clearTokens localStorage)
  | getCurrentUser_pending => (st, localStorage)
  | getCurrentUser_fulfilled payload =>
      ({| user := Some payload; token := token st; refreshToken := refreshToken st;
          isAuthenticated := true; isLoading := isLoading st; error := error st |},
       localStorage)
  | getCurrentUser_rejected => (signedOut st (error st), clearTokens localStorage)
  | requestPasswordReset_pending => (loading st, localStorage)
  | requestPasswordReset_fulfilled => (settled st None, localStorage)
  | requestPasswordReset_rejected payload => (settled st payload, localStorage)
  | resetPassword_pending => (loading st, localStorage)
  | resetPassword_fulfilled => (settled st None, localStorage)
  | resetPassword_rejected payload => (settled st payload, localStorage)
  end.

(** The store after a sequence of actions, started with what
    [localStorage] held when the module was loaded. *)
Definition dispatched (localStorage : gmap jsstring jsstring) (actions : list Action)
  : AuthState * gmap jsstring jsstring :=
  foldl reducer (initialState localStorage, localStorage) actions.

(** [loginUser]: how the request ends (the response data, or the
    [error.response?.data?.message] of a failure), the tokens written on
    success, and the actions dispatched. *)
Definition loginUser (outcome : AuthResponse + option jsstring)
    (s : AuthState * gmap jsstring jsstring) : AuthState * gmap jsstring jsstring :=
  let '(st, localStorage) := reducer s loginUser_pending in
  match outcome with
  | inl data =>
      let localStorage :=
        <[str "refresh_token" := refresh_token data]>
          (<[str "access_token" := access_token data]> localStorage) in
      reducer (st, localStorage) (loginUser_fulfilled data)
  | inr responseMessage =>
      let message := or_else responseMessage (str "Login failed") in
      reducer (st, localStorage) (loginUser_rejected (Some message))
  end.

End AuthSlice.

(** ** components/auth/ProtectedRoute.tsx *)

Module ProtectedRoute.



End ProtectedRoute.

(** ** Vocabulary of the further statements *)

(** A sequence of selections in the language menu. *)
Definition switches (st : CodingInterface.State) (languages : list SupportedLanguage)
  : CodingInterface.State :=
  foldl (fun st language => CodingInterface.handleLanguageChange language st)
        st languages.


(** * Properties *)

(** ** Strings *)

Section Trim.

Lemma trimStart_nil_iff (s : jsstring) :
  trimStart s = [] <-> forallb is_white_space s = true.
Proof.
  induction s as [|c s IH]; simpl; [tauto|].
  destruct (is_white_space c); simpl; [exact IH|].
  split; discriminate.
Qed.

Lemma trimStart_head (s : jsstring) c r :
  trimStart s = c :: r -> is_white_space c = false.
Proof.
  induction s as [|d s IH]; simpl; [discriminate|].
  destruct (is_white_space d) eqn:E; [exact IH|].
  intros [= <- _]. exact E.
Qed.

(** [trim] leaves nothing exactly when every code unit is white space. *)
Lemma trim_nil_iff (s : jsstring) :
  trim s = [] <-> forallb is_white_space s = true.
Proof.
  unfold trim, trimEnd. split.
  - intros H. apply (f_equal (@rev _)) in H. rewrite rev_involutive in H.
    simpl in H. apply trimStart_nil_iff in H.
    destruct (trimStart s) as [|c r] eqn:E.
    + now apply trimStart_nil_iff.
    + apply trimStart_head in E.
      rewrite forallb_forall in H.
      rewrite (H c) in E; [discriminate|].
      apply in_rev. rewrite rev_involutive. now left.
  - intros H. apply trimStart_nil_iff in H. now rewrite H.
Qed.

(** The test [!code.trim()] of the language switch. *)
Lemma not_truthy_trim (s : jsstring) :
  negb (truthy (trim s)) = true <-> blank s.
Proof.
  unfold blank. rewrite List.Forall_forall, <- forallb_forall, <- trim_nil_iff.
  destruct (trim s); simpl; split; congruence.
Qed.

End Trim.

(** ** The language registry of the front end *)

Section Languages.

Lemma getLanguageConfig_unregistered (languageId : jsstring) :
  ~ registered languageId -> getLanguageConfig languageId = None.
Proof.
  intros Hn. unfold getLanguageConfig.
  destruct (find _ SUPPORTED_LANGUAGES) as [config|] eqn:E; [|reflexivity].
  apply find_some in E as [Hin Hid]. apply bool_decide_eq_true in Hid.
  exfalso. apply Hn. unfold registered. rewrite <- Hid.
  apply list_elem_of_fmap_2, list_elem_of_In, Hin.
Qed.

Lemma languageMap_unregistered (languageId : jsstring) :
  ~ registered languageId -> languageMap !! languageId = None.
Proof.
  intros Hn. apply not_elem_of_list_to_map_1. exact Hn.
Qed.

Lemma registered_configs (P : LanguageConfig.t -> Prop) :
  Forall P SUPPORTED_LANGUAGES ->
  forall config, config ∈ SUPPORTED_LANGUAGES -> P config.
Proof. intros H config Hin. rewrite Forall_forall in H. auto. Qed.

(** C8, as the code has it: a registered id resolves to its own entry, its
    starter code and its Monaco id; an unregistered id resolves to
    [undefined], to the empty starter code and, unless it names a member
    of [Object.prototype], to 'plaintext'.  Nothing is thrown. *)
Theorem getLanguageConfig_resolve :
  (forall config, config ∈ SUPPORTED_LANGUAGES ->
     getLanguageConfig (LanguageConfig.id config) = Some config
     /\ getDefaultCodeForLanguage (LanguageConfig.id config)
        = LanguageConfig.defaultCode config
     /\ getMonacoLanguage (LanguageConfig.id config)
        = StringValue (LanguageConfig.monacoLanguage config))
  /\ (forall languageId, ~ registered languageId ->
       getLanguageConfig languageId = None
       /\ getDefaultCodeForLanguage languageId = str ""
       /\ getMonacoLanguage languageId
          = if bool_decide (languageId ∈ Object_prototype_keys)
            then InheritedMember languageId
            else StringValue (str "plaintext")).
Proof.
  split.
  - apply registered_configs.
    repeat (apply Forall_cons; split; [vm_compute; auto|]).
    apply Forall_nil. exact I.
  - intros languageId Hn. split; [|split].
    + now apply getLanguageConfig_unregistered.
    + unfold getDefaultCodeForLanguage.
      now rewrite getLanguageConfig_unregistered.
    + unfold getMonacoLanguage, get_property.
      rewrite languageMap_unregistered by assumption.
      now destruct (bool_decide _).
Qed.

(** C8, counterexample: the id "ruby" is not registered, and resolving it
    gives the empty starter code and the 'plaintext' default instead of
    an error. *)
Lemma unknown_language_silent_default :
  ~ registered (str "ruby")
  /\ getLanguageConfig (str "ruby") = None
  /\ getDefaultCodeForLanguage (str "ruby") = str ""
  /\ getMonacoLanguage (str "ruby") = StringValue (str "plaintext").
Proof.
  split; [compute_done|]. vm_compute. auto.
Qed.

(** C8, witness: the unregistered id "ruby" gets the empty starter code. *)
Lemma getLanguageConfig_resolve_witness :
  ~ registered (str "ruby") /\ getDefaultCodeForLanguage (str "ruby") = str "".
Proof.
  assert (Hn : ~ registered (str "ruby")) by compute_done.
  split; [exact Hn|].
  exact (proj1 (proj2 (proj2 getLanguageConfig_resolve (str "ruby") Hn))).
Defined.

End Languages.

(** ** Switching the language of the editor *)

Section LanguageSwitch.

Import CodingInterface.

(** Selecting the language that is already set is not a switch. *)
Lemma handleLanguageChange_same (st : State) :
  handleLanguageChange (language st) st = st.
Proof.
  unfold handleLanguageChange.
  rewrite bool_decide_eq_false_2; [reflexivity|]. intros H. now apply H.
Qed.

(** C10: on a switch to another language the buffer becomes the starter
    code of the new language when it is blank or is the starter code of
    the old language, and is left as it is otherwise; the language is
    set and the execution state is not touched. *)
Theorem handleLanguageChange_code (newLanguage : SupportedLanguage) (st : State) :
  newLanguage <> language st ->
  let st' := handleLanguageChange newLanguage st in
  language st' = newLanguage
  /\ isExecuting st' = isExecuting st
  /\ executionResult st' = executionResult st
  /\ (blank (code st) \/ code st = getDefaultCodeForLanguage (language st) ->
      code st' = getDefaultCodeForLanguage newLanguage)
  /\ (~ blank (code st) ->
      code st <> getDefaultCodeForLanguage (language st) ->
      code st' = code st).
Proof.
  intros Hne. unfold handleLanguageChange.
  rewrite bool_decide_eq_true_2 by exact Hne.
  destruct (negb (truthy (trim (code st)))) eqn:Hblank; simpl.
  - apply not_truthy_trim in Hblank. repeat split; auto.
    intros Hnb. now destruct Hnb.
  - assert (Hnb : ~ blank (code st)).
    { rewrite <- not_truthy_trim, Hblank. discriminate. }
    destruct (bool_decide (code st = _)) eqn:Hdef; simpl.
    + apply bool_decide_eq_true in Hdef. repeat split; auto.
      intros _ Hd. now destruct Hd.
    + apply bool_decide_eq_false in Hdef. repeat split; auto.
      intros [Hb|Hd]; [now destruct Hnb | now destruct Hdef].
Qed.

(** C10, witness: a Python buffer with code of the user's own, switched to
    JavaScript, keeps that code. *)
Lemma handleLanguageChange_code_witness :
  let st := {| code := str "print(6 * 7)"; language := str "python";
               isExecuting := false; executionResult := None |} in
  str "javascript" <> language st
  /\ code (handleLanguageChange (str "javascript") st) = str "print(6 * 7)".
Proof.
  intros st.
  assert (Hne : str "javascript" <> language st) by (vm_compute; discriminate).
  split; [exact Hne|].
  refine (proj2 (proj2 (proj2 (proj2
           (handleLanguageChange_code (str "javascript") st Hne)))) _ _).
  - compute_done.
  - vm_compute; discriminate.
Defined.

Example switch_from_starter_code :
  code (handleLanguageChange (str "go")
          {| code := getDefaultCodeForLanguage (str "rust");
             language := str "rust";
             isExecuting := false; executionResult := None |})
  = getDefaultCodeForLanguage (str "go").
Proof. reflexivity. Qed.

Example switch_from_blank_buffer :
  code (handleLanguageChange (str "cpp")
          {| code := [0x20; 0x0A; 0x09; 0xA0]%N;
             language := str "java";
             isExecuting := false; executionResult := None |})
  = getDefaultCodeForLanguage (str "cpp").
Proof. reflexivity. Qed.

End LanguageSwitch.

(** ** The mock test run of the coding interface *)

Section MockRun.

Import CodingInterface.

#[local] Arguments mockTestResult : simpl never.
#[local] Arguments map_with_index : simpl never.

Lemma map_with_index_cons {A B} (f : A -> nat -> Rand B) index a l draws pos :
  map_with_index f index (a :: l) draws pos
  = let '(b, j) := f a index draws pos in
    let '(bs, j') := map_with_index f (S index) l draws j in
    (b :: bs, j').
Proof. reflexivity. Qed.

Lemma mockTestResult_pos testCase index draws pos :
  (mockTestResult testCase index draws pos).2 = S (S pos).
Proof. reflexivity. Qed.

(** The entry for the test case at position [k] is made from that test
    case, its position and the two draws that belong to it. *)
Lemma mock_results_lookup draws testCases :
  forall index pos k testCase,
    testCases !! k = Some testCase ->
    (map_with_index mockTestResult index testCases draws pos).1 !! k
    = Some (mockTestResult testCase (index + k) draws (pos + 2 * k)).1.
Proof.
  induction testCases as [|a l IH]; intros index pos k testCase Hk.
  - discriminate.
  - rewrite map_with_index_cons.
    destruct (mockTestResult a index draws pos) as [b j] eqn:Eb.
    destruct (map_with_index mockTestResult (S index) l draws j) as [bs j'] eqn:Ebs.
    destruct k as [|k].
    + injection Hk as ->.
      replace (index + 0)%nat with index by lia.
      replace (pos + 2 * 0)%nat with pos by lia.
      now rewrite Eb.
    + change ((a :: l) !! S k) with (l !! k) in Hk.
      change ((b :: bs, j').1 !! S k) with (bs !! k).
      specialize (IH (S index) j k testCase Hk). rewrite Ebs in IH.
      change ((bs, j').1) with bs in IH. rewrite IH.
      pose proof (mockTestResult_pos a index draws pos) as Hj.
      rewrite Eb in Hj. change ((b, j).2) with j in Hj. subst j.
      do 3 f_equal; lia.
Qed.

Lemma mock_results_length draws testCases :
  forall index pos,
    length (map_with_index mockTestResult index testCases draws pos).1
    = length testCases.
Proof.
  induction testCases as [|a l IH]; intros index pos; [reflexivity|].
  rewrite map_with_index_cons.
  destruct (mockTestResult a index draws pos) as [b j].
  specialize (IH (S index) j).
  destruct (map_with_index mockTestResult (S index) l draws j) as [bs j'].
  cbn [fst length] in *. now rewrite IH.
Qed.


(** Two lists of test cases with the same ids and expected outputs get the
    same entries: the input, the hidden flag and the weight are not read. *)
Lemma mock_results_shown_part draws testCases testCases' :
  shown_part <$> testCases' = shown_part <$> testCases ->
  forall index pos,
    map_with_index mockTestResult index testCases' draws pos
    = map_with_index mockTestResult index testCases draws pos.
Proof.
  revert testCases'.
  induction testCases as [|a l IH]; intros [|a' l'] H index pos;
    try discriminate; [reflexivity|].
  injection H as Hid Hexp Hl.
  rewrite !map_with_index_cons.
  assert (Hm : mockTestResult a' index draws pos = mockTestResult a index draws pos).
  { unfold mockTestResult. cbn. now rewrite Hid, Hexp. }
  rewrite Hm. destruct (mockTestResult a index draws pos) as [b j].
  now rewrite (IH l' Hl).
Qed.

Lemma handleRunTests_result question st draws pos :
  (handleRunTests question st draws pos).1.1
  = (mockExecutionResult question draws pos).1.
Proof.
  unfold handleRunTests. unfold mbind, Rand_bind.
  now destruct (mockExecutionResult question draws pos).
Qed.

Lemma mockExecutionResult_testResults question draws pos :
  ExecutionResult.testResults (mockExecutionResult question draws pos).1
  = Some (map_with_index mockTestResult 0
            (CodingQuestion.testCases question) draws (S (S pos))).1.
Proof.
  unfold mockExecutionResult. unfold mbind, Rand_bind, random.
  now destruct (map_with_index _ _ _ _ _).
Qed.


Lemma result_outputs_visible result results k r :
  ExecutionResult.testResults result = Some results ->
  results !! k = Some r ->
  TestCaseResult.expectedOutput r ∈ CodeExecutionPanel.visibleTexts (Some result)
  /\ TestCaseResult.actualOutput r ∈ CodeExecutionPanel.visibleTexts (Some result).
Proof.
  intros Hres Hk.
  unfold CodeExecutionPanel.visibleTexts, CodeExecutionPanel.renderTestResults.
  cbn [mbind option_bind]. rewrite Hres. cbn [from_option].
  assert (Hrow : CodeExecutionPanel.renderRow (length results) k r
                 ∈ imap (CodeExecutionPanel.renderRow (length results)) results).
  { apply list_elem_of_lookup_2 with k. now rewrite list_lookup_imap, Hk. }
  split; apply list_elem_of_bind; eexists; (split; [|exact Hrow]);
    unfold CodeExecutionPanel.rowTexts; cbn [CodeExecutionPanel.title
      CodeExecutionPanel.expectedPaper CodeExecutionPanel.actualPaper
      CodeExecutionPanel.renderRow];
    set_solver.
Qed.

(** C2, as the code has it: no entry is redacted.  Every test case of the
    question, hidden or not, has its entry in the result of
    [handleRunTests], with its expected output, which the panel shows;
    the actual output is the expected output when the case passed and a
    text made from the position otherwise.  The input, the hidden flag
    and the weight of a test case do not reach the result. *)
Theorem handleRunTests_shows_every_expected_output
    (question : CodingQuestion.t) (st : State) (draws : nat -> float) (pos : nat) :
  let result := (handleRunTests question st draws pos).1.1 in
  (forall k testCase,
      CodingQuestion.testCases question !! k = Some testCase ->
      exists r,
        ExecutionResult.testResults result ≫= (fun results => results !! k) = Some r
        /\ TestCaseResult.testCaseId r = TestCase.id testCase
        /\ TestCaseResult.expectedOutput r = TestCase.expectedOutput testCase
        /\ TestCaseResult.actualOutput r
           = (if TestCaseResult.passed r then TestCase.expectedOutput testCase
              else str "Incorrect output for test " ++ number_to_string (k + 1))
        /\ TestCase.expectedOutput testCase
           ∈ CodeExecutionPanel.visibleTexts (Some result))
  /\ (forall question',
        shown_part <$> CodingQuestion.testCases question'
        = shown_part <$> CodingQuestion.testCases question ->
        (handleRunTests question' st draws pos).1.1 = result).
Proof.
  intros result. subst result. rewrite handleRunTests_result. split.
  - intros k testCase Hk.
    pose proof (mockExecutionResult_testResults question draws pos) as Hres.
    pose proof (mock_results_lookup draws _ 0 (S (S pos)) k testCase Hk) as Hr.
    eexists. rewrite Hres. cbn [mbind option_bind].
    split; [exact Hr|].
    repeat split.
    eapply (result_outputs_visible _ _ k
              (mockTestResult testCase (0 + k) draws (S (S pos) + 2 * k)).1)
      in Hres as [He _]; [exact He | exact Hr].
  - intros question' Hshown. rewrite handleRunTests_result.
    unfold mockExecutionResult, mbind, Rand_bind, random.
    now rewrite (mock_results_shown_part draws _ _ Hshown).
Qed.

(** C2, counterexample: in the demo question the fourth test case is
    hidden; after a run in which every case passes, the panel shows its
    expected output in both boxes of the fourth row, and another
    expected output of that case gives another row. *)
Lemma hidden_expected_output_is_shown :
  let draws := fun _ : nat => 0.5%float in
  let st := {| code := CodingQuestion.starterCode mockCodingQuestion;
               language := CodingQuestion.language mockCodingQuestion;
               isExecuting := false; executionResult := None |} in
  let shown question :=
    CodeExecutionPanel.renderTestResults
      (Some (handleRunTests question st draws 0).1.1) ≫= (fun rows => rows !! 3%nat) in
  let other :=
    {| CodingQuestion.id := CodingQuestion.id mockCodingQuestion;
       CodingQuestion.title := CodingQuestion.title mockCodingQuestion;
       CodingQuestion.description := CodingQuestion.description mockCodingQuestion;
       CodingQuestion.language := CodingQuestion.language mockCodingQuestion;
       CodingQuestion.starterCode := CodingQuestion.starterCode mockCodingQuestion;
       CodingQuestion.testCases :=
         take 3 (CodingQuestion.testCases mockCodingQuestion)
         ++ [ {| TestCase.id := str "test-4";
                 TestCase.input := str "nums = [1, 2, 3, 4, 5], target = 8";
                 TestCase.expectedOutput := str "[1, 3]";
                 TestCase.isHidden := true;
                 TestCase.weight := 2.0%float |} ];
       CodingQuestion.timeLimit := CodingQuestion.timeLimit mockCodingQuestion;
       CodingQuestion.memoryLimit := CodingQuestion.memoryLimit mockCodingQuestion |} in
  (TestCase.isHidden <$> CodingQuestion.testCases mockCodingQuestion !! 3%nat) = Some true
  /\ (CodeExecutionPanel.expectedPaper <$> shown mockCodingQuestion) = Some (str "[2, 4]")
  /\ (CodeExecutionPanel.actualPaper <$> shown mockCodingQuestion) = Some (str "[2, 4]")
  /\ (CodeExecutionPanel.expectedPaper <$> shown other) = Some (str "[1, 3]")
  /\ shown other <> shown mockCodingQuestion.
Proof.
  vm_compute. repeat split. discriminate.
Qed.

Example handleRunTests_demo_ids :
  fmap (M := list) TestCaseResult.testCaseId
    <$> ExecutionResult.testResults
          (handleRunTests mockCodingQuestion
             {| code := []; language := str "python";
                isExecuting := false; executionResult := None |}
             (fun _ => 0.1%float) 0).1.1
  = Some [str "test-1"; str "test-2"; str "test-3"; str "test-4"].
Proof. reflexivity. Qed.

End MockRun.

(** ** The summary chip of the panel *)

Section Summary.

Import CodeExecutionPanel.

(** The chip counts the passed entries among all entries; it does not
  look at weights, which the entries do not carry. *)
Lemma getTestResultsSummary_count (testResults : list TestCaseResult.t) :
let '(passed, total) := getTestResultsSummary testResults in
passed <= total
/\ total = length testResults
/\ (passed = total <-> Forall (fun r => TestCaseResult.passed r = true) testResults).
Proof.
unfold getTestResultsSummary. split; [apply filter_length_le|].
split; [reflexivity|].
induction testResults as [|r l IH]; cbn [List.filter].
- split; [intros _; apply Forall_nil; exact I | reflexivity].
- pose proof (filter_length_le TestCaseResult.passed l) as Hle.
  destruct (TestCaseResult.passed r) eqn:Hr; cbn [length].
  + rewrite Forall_cons. split.
    * intros [= H]. split; [exact Hr|]. now apply IH.
    * intros (_ & H). f_equal. now apply IH.
  + split; [lia|]. intros H. apply Forall_cons in H as (H & _). congruence.
Qed.

End Summary.

(** ** The execution hook *)

Section Hook.

Import UseCodeExecution.

#[local] Ltac run_hook :=
  unfold executeCode, runTests, try_finally, try_catch, on_catch,
    call_optional, setIsExecuting, setError, setExecutionResult, lift,
    mbind, M_bind, mret, M_ret, returns_normally in *.

(** After the call of [onExecutionStart] the rest of both functions is
    inside [try ... finally], which resets [isExecuting]. *)
Lemma finally_resets {A} (block : M A) (st : State) :
  isExecuting (try_finally block (setIsExecuting false) st).2 = false.
Proof.
  unfold try_finally, setIsExecuting. now destruct (block st).
Qed.

(** C9, as the code has it.  When [onExecutionStart] is absent or returns,
    [isExecuting] is [false] after [executeCode] and after [runTests],
    whatever the service and the other callbacks do.  When moreover the
    service throws a value whose [message] can be read and
    [onExecutionError] is absent or returns, both functions return, and
    store, the failed result with that message and zero time and memory,
    and store the message as the error. *)
Theorem hook_error_result
    (options : Options) (api : CodeExecutionService.Api) (st : State) :
  returns_normally (onExecutionStart options) () ->
  (forall code language input,
      isExecuting (executeCode options api code language input st).2 = false)
  /\ (forall code language testCases,
      isExecuting (runTests options api code language testCases st).2 = false)
  /\ (forall err message,
        get_message err = Returns message ->
        returns_normally (onExecutionError options) err ->
        let failed :=
          {| ExecutionResult.success := false;
             ExecutionResult.output := str "";
             ExecutionResult.error := message;
             ExecutionResult.executionTime := 0%float;
             ExecutionResult.memoryUsage := 0%float;
             ExecutionResult.testResults := None |} in
        let st' := {| isExecuting := false;
                      executionResult := Some failed;
                      error := message |} in
        (forall code language input,
            CodeExecutionService.executeCode api
              {| CodeExecutionService.ExecuteCodeRequest.code := code;
                 CodeExecutionService.ExecuteCodeRequest.language := language;
                 CodeExecutionService.ExecuteCodeRequest.input := input |}
            = Throws err ->
            executeCode options api code language input st = (Returns failed, st'))
        /\ (forall code language testCases,
              CodeExecutionService.runTests api
                {| CodeExecutionService.RunTestsRequest.code := code;
                   CodeExecutionService.RunTestsRequest.language := language;
                   CodeExecutionService.RunTestsRequest.testCases := testCases |}
              = Throws err ->
              runTests options api code language testCases st = (Returns failed, st'))).
Proof.
  intros Hstart. split; [|split].
  - intros code language input. unfold executeCode.
    unfold mbind at 1 2 3, M_bind, setIsExecuting at 1, setError, call_optional at 1, lift.
    unfold returns_normally in Hstart.
    destruct (onExecutionStart options) as [f|];
      [rewrite Hstart|unfold mret, M_ret]; apply finally_resets.
  - intros code language testCases. unfold runTests.
    unfold mbind at 1 2 3, M_bind, setIsExecuting at 1, setError, call_optional at 1, lift.
    unfold returns_normally in Hstart.
    destruct (onExecutionStart options) as [f|];
      [rewrite Hstart|unfold mret, M_ret]; apply finally_resets.
  - intros err message Hmsg Herr failed st'. subst failed st'.
    split; intros code language arg Hthrow; run_hook;
      rewrite Hthrow, Hmsg;
      destruct (onExecutionStart options) as [f|]; try rewrite Hstart;
      destruct (onExecutionError options) as [g|]; try rewrite Herr;
      reflexivity.
Qed.

(** C9, witness: no callbacks, and a back end whose calls fail with an
    error that is not an axios error. *)
Lemma hook_error_result_witness :
  let options := {| onExecutionStart := None; onExecutionComplete := None;
                    onExecutionError := None |} in
  let api := {| CodeExecutionService.post_run :=
                  fun _ => CodeExecutionService.OtherError (ErrorObject (str "boom"));
                CodeExecutionService.post_test :=
                  fun _ => CodeExecutionService.OtherError (ErrorObject (str "boom")) |} in
  let st := {| isExecuting := false; executionResult := None; error := None |} in
  returns_normally (onExecutionStart options) ()
  /\ ExecutionResult.error
       <$> (runTests options api (str "print(1)") (str "python") [] st).2.(executionResult)
     = Some (Some (str "boom")).
Proof.
  intros options api st.
  assert (Hstart : returns_normally (onExecutionStart options) ()) by exact I.
  split; [exact Hstart|].
  destruct (hook_error_result options api st Hstart) as (_ & _ & H).
  destruct (H (ErrorObject (str "boom")) (Some (str "boom")) eq_refl I) as (_ & Ht).
  now rewrite (Ht (str "print(1)") (str "python") [] eq_refl).
Defined.

(** C9, counterexample.  The service throws an [Error]; with an
    [onExecutionError] callback that throws, [executeCode] rejects with the
    callback's error and stores no result; with an [onExecutionStart]
    callback that throws, [runTests] rejects before the [try] block and
    leaves [isExecuting] set. *)
Lemma hook_rejects_when_callback_throws :
  let api := {| CodeExecutionService.post_run :=
                  fun _ => CodeExecutionService.OtherError (ErrorObject (str "boom"));
                CodeExecutionService.post_test :=
                  fun _ => CodeExecutionService.OtherError (ErrorObject (str "boom")) |} in
  let st := {| isExecuting := false; executionResult := None; error := None |} in
  let failing {A} : option (A -> Completion unit) :=
    Some (fun _ => Throws (ErrorObject (str "callback failed"))) in
  CodeExecutionService.executeCode api
    {| CodeExecutionService.ExecuteCodeRequest.code := str "print(1)";
       CodeExecutionService.ExecuteCodeRequest.language := str "python";
       CodeExecutionService.ExecuteCodeRequest.input := None |}
  = Throws (ErrorObject (str "boom"))
  /\ executeCode {| onExecutionStart := None; onExecutionComplete := None;
                    onExecutionError := failing |}
       api (str "print(1)") (str "python") None st
     = (Throws (ErrorObject (str "callback failed")),
        {| isExecuting := false; executionResult := None;
           error := Some (str "boom") |})
  /\ runTests {| onExecutionStart := failing; onExecutionComplete := None;
                 onExecutionError := None |}
       api (str "print(1)") (str "python") [] st
     = (Throws (ErrorObject (str "callback failed")),
        {| isExecuting := true; executionResult := None; error := None |}).
Proof.
  repeat split.
Qed.

(** An error of axios itself does not make the service throw: the hook
    then stores the result that the service built from it. *)
Example executeCode_axios_error :
  let api := {| CodeExecutionService.post_run :=
                  fun _ => CodeExecutionService.AxiosError None (str "Network Error");
                CodeExecutionService.post_test :=
                  fun _ => CodeExecutionService.AxiosError None (str "Network Error") |} in
  ExecutionResult.error
    <$> (executeCode {| onExecutionStart := None; onExecutionComplete := None;
                        onExecutionError := None |}
           api (str "print(1)") (str "python") None
           {| isExecuting := false; executionResult := None; error := None |}).2.(executionResult)
  = Some (Some (str "Execution failed: Network Error")).
Proof. reflexivity. Qed.

End Hook.

(** ** Resource limits *)

Section Limits.

Import Engine.

Lemma image_ceiling_values memory cpu wall :
  max_processes (image_ceiling memory cpu wall) = 16%Z
  /\ max_open_files (image_ceiling memory cpu wall) = 32%Z
  /\ max_output_bytes (image_ceiling memory cpu wall) = 10485760%Z.
Proof. repeat split. Qed.

(** In the images the soft limit of each item is its hard limit. *)
Lemma soft_limits_at_ceiling (it : Dockerfile.LimitItem) :
  Dockerfile.limit "coderunner" Dockerfile.soft it
  = Dockerfile.limit "coderunner" Dockerfile.hard it.
Proof. now destruct it. Qed.

End Limits.

(** ** The orchestrator *)

Section Orchestrator.

Import Engine.

Variable ceiling : ResourceLimits.
Variable profile : LanguageProfile.
Variable request : ExecutionRequest.
Variable w : World.

Let limits := effective_limits (requested_limits profile request) ceiling.
Let n := length (test_cases request).
Let next := step ceiling profile request w.

Lemma acquisitions_app tr tr' :
  acquisitions (tr ++ tr') = acquisitions tr ++ acquisitions tr'.
Proof. apply omap_app. Qed.

Lemma releases_app tr tr' : releases (tr ++ tr') = releases tr ++ releases tr'.
Proof. apply omap_app. Qed.


Lemma consistent_initial : consistent ceiling profile request w initial.
Proof. repeat split. Qed.

(** Every transition keeps the machine consistent. *)
Lemma consistent_step m :
  consistent ceiling profile request w m ->
  consistent ceiling profile request w (next m).
Proof.
  unfold consistent, next, step. intros H.
  destruct (phase m) eqn:Hp; cbv zeta in *.
  - (* Queued *)
    destruct H as (Hs & Ht & Hb & Hr).
    destruct (well_formed w) eqn:Hwf; cbn; auto 10.
  - (* Scanning *)
    destruct H as ((Hs & Ht & Hb & Hr) & Hwf).
    destruct (allowed (scan w)) eqn:Hal; cbn; auto 10.
  - (* Rejected *)
    rewrite Hp. exact H.
  - (* Provisioning *)
    destruct H as ((Hs & Ht & Hb & Hr) & Hwf & Hal).
    destruct (provision w _) as [h|] eqn:Hprov.
    + destruct (compile_command profile); cbn; rewrite Ht; cbn.
      * split; [auto|]. exists h. auto 10.
      * split; [auto|]. exists h. rewrite Hr. repeat split; auto. lia.
    + cbn. rewrite ?Hprov. repeat split; auto; discriminate.
  - (* Compiling *)
    destruct H as (Hadm & h & Hprov & Hs & Ht & Hb & Hr).
    destruct (compile_step w) as [[|]|[|diag]]; unfold teardown; cbn;
      rewrite ?Hs; cbn; rewrite ?Hprov, ?Ht; cbn.
    + (* cancelled *)
      split; [exact Hadm|]. do 2 (split; [auto|]). intros _.
      rewrite Hr. cbn. rewrite length_fmap, <- list_fmap_compose. now split.
    + (* crashed *)
      split; [exact Hadm|]. do 2 (split; [auto|]). discriminate.
    + (* compiled *)
      split; [exact Hadm|]. exists h. rewrite Hr. repeat split; auto. lia.
    + (* compile failed *)
      split; [exact Hadm|]. do 2 (split; [auto|]). discriminate.
  - (* Running *)
    destruct H as (Hadm & h & Hprov & Hs & Hacq & Hrel & Hb & Hlen & Hle & Hids).
    destruct (test_cases request !! i) as [tc|] eqn:Htc.
    + apply lookup_lt_Some in Htc as Hlt.
      destruct (run_step w i) as [[|]|outcome]; unfold teardown; cbn;
        rewrite ?Hs; cbn; rewrite ?Hprov; cbn.
      * (* cancelled *)
        rewrite !acquisitions_app, !releases_app, Hacq, Hrel. cbn.
        split; [exact Hadm|]. do 2 (split; [auto|]). intros _. split.
        -- rewrite length_app, length_fmap, length_drop. lia.
        -- rewrite fmap_app, Hids, <- list_fmap_compose.
           change (test_case_id ∘ not_run) with case_id.
           now rewrite <- fmap_app, take_drop.
      * (* crashed *)
        rewrite !acquisitions_app, !releases_app, Hacq, Hrel. cbn.
        split; [exact Hadm|]. do 2 (split; [auto|]). discriminate.
      * (* the case ran *)
        split; [exact Hadm|]. exists h.
        assert (Hids' : test_case_id <$> results m ++ [judge tc outcome]
                        = case_id <$> take (S i) (test_cases request)).
        { rewrite (take_S_r _ _ _ Htc), !fmap_app, Hids. f_equal.
          now destruct outcome. }
        destruct (timed_out outcome); cbn;
          rewrite ?acquisitions_app, ?releases_app, Hacq, Hrel, length_app; cbn;
          repeat split; auto; lia.
    + apply lookup_ge_None in Htc.
      unfold teardown. rewrite Hs. cbn. rewrite Hprov.
      rewrite acquisitions_app, releases_app, Hacq, Hrel. cbn.
      split; [exact Hadm|]. do 2 (split; [auto|]). intros _. split; [lia|].
      rewrite Hids. now rewrite take_ge by lia.
  - (* Aggregating *)
    cbn. exact H.
  - (* Completed *)
    rewrite Hp. exact H.
Qed.

Lemma run_S k :
  run ceiling profile request w (S k) = next (run ceiling profile request w k).
Proof. reflexivity. Qed.

Lemma consistent_run k :
  consistent ceiling profile request w (run ceiling profile request w k).
Proof.
  induction k as [|k IH]; [apply consistent_initial|].
  rewrite run_S. now apply consistent_step.
Qed.

(** Every transition out of a phase that is not final uses up one of the
    transitions that are left. *)
Lemma remaining_step m :
  remaining n (phase (next m)) <= pred (remaining n (phase m)).
Proof.
  unfold next, step.
  destruct (phase m) eqn:Hp; cbn; rewrite ?Hp; cbn; try lia.
  - destruct (well_formed w); cbn; lia.
  - destruct (allowed (scan w)); cbn; lia.
  - destruct (provision w _); cbn; [|lia].
    destruct (compile_command profile); cbn; lia.
  - destruct (compile_step w) as [[|]|[|diag]]; unfold teardown; cbn;
      destruct (sandbox m); cbn; lia.
  - destruct (test_cases request !! i) as [tc|] eqn:Htc.
    + apply lookup_lt_Some in Htc. fold n in Htc.
      destruct (run_step w i) as [[|]|outcome]; unfold teardown; cbn;
        destruct (sandbox m); cbn; try lia.
      all: destruct (timed_out outcome); cbn; lia.
    + unfold teardown. destruct (sandbox m); cbn; lia.
Qed.

Lemma remaining_run k :
  remaining n (phase (run ceiling profile request w k)) <= (n + 6) - k.
Proof.
  induction k as [|k IH]; [cbn; lia|].
  rewrite run_S. pose proof (remaining_step (run ceiling profile request w k)).
  lia.
Qed.

(** The orchestrator terminates: with [fuel request] transitions the
    machine is in a final phase. *)
Lemma run_final : final (phase (run ceiling profile request w (fuel request))).
Proof.
  pose proof (remaining_run (fuel request)) as H.
  unfold fuel in *. fold n in H |- *. unfold final.
  destruct (phase (run ceiling profile request w (n + 6)));
    unfold remaining in H; auto; lia.
Qed.

(** A final phase is left by no transition. *)
Lemma final_fixed m k : final (phase m) -> Nat.iter k next m = m.
Proof.
  intros Hf. induction k as [|k IH]; [reflexivity|].
  rewrite Nat.iter_succ, IH. unfold next, step. now destruct Hf as [-> | ->].
Qed.

(** A transition only adds events, and a sandbox only with the effective
    limits of the request. *)
Lemma acquired_limits_step m :
  Forall (fun e => forall h l, e = Acquired h l -> l = limits) (trace m) ->
  Forall (fun e => forall h l, e = Acquired h l -> l = limits) (trace (next m)).
Proof.
  intros H. unfold next, step.
  destruct (phase m); cbn; auto.
  - now destruct (well_formed w).
  - now destruct (allowed (scan w)).
  - destruct (provision w _); cbn; auto.
    apply Forall_app. split; [exact H|].
    apply Forall_singleton. now intros h l [= _ <-].
  - destruct (compile_step w) as [[|]|[|diag]]; unfold teardown; cbn;
      destruct (sandbox m); cbn;
      repeat (apply Forall_app; split); auto;
      apply Forall_singleton; discriminate.
  - destruct (test_cases request !! i).
    + destruct (run_step w i) as [[|]|outcome]; unfold teardown; cbn;
        try destruct (sandbox m); try destruct (timed_out outcome); cbn;
        repeat (apply Forall_app; split); auto;
        apply Forall_singleton; discriminate.
    + unfold teardown. destruct (sandbox m); cbn; auto.
      apply Forall_app. split; [exact H|]. apply Forall_singleton. discriminate.
Qed.

Lemma acquired_limits_run k h l :
  Acquired h l ∈ trace (run ceiling profile request w k) -> l = limits.
Proof.
  assert (H : Forall (fun e => forall h l, e = Acquired h l -> l = limits)
                (trace (run ceiling profile request w k))).
  { induction k as [|k IH]; [apply Forall_nil; exact I|].
    rewrite run_S. now apply acquired_limits_step. }
  rewrite Forall_forall in H. intros Hin. exact (H _ Hin h l eq_refl).
Qed.

(** C3: every field of the effective limits is the minimum of what the
    request asks for and the platform ceiling, so none exceeds the
    ceiling; and these are the limits every sandbox is acquired with. *)
Theorem effective_limits_clamped :
  let requested := requested_limits profile request in
  let effective := effective_limits requested ceiling in
  (memory_mb effective = Z.min (memory_mb requested) (memory_mb ceiling)
   /\ cpu_time_seconds effective
      = Z.min (cpu_time_seconds requested) (cpu_time_seconds ceiling)
   /\ wall_time_seconds effective
      = Z.min (wall_time_seconds requested) (wall_time_seconds ceiling)
   /\ max_processes effective
      = Z.min (max_processes requested) (max_processes ceiling)
   /\ max_open_files effective
      = Z.min (max_open_files requested) (max_open_files ceiling)
   /\ max_output_bytes effective
      = Z.min (max_output_bytes requested) (max_output_bytes ceiling))
  /\ (memory_mb effective <= memory_mb ceiling
      /\ cpu_time_seconds effective <= cpu_time_seconds ceiling
      /\ wall_time_seconds effective <= wall_time_seconds ceiling
      /\ max_processes effective <= max_processes ceiling
      /\ max_open_files effective <= max_open_files ceiling
      /\ max_output_bytes effective <= max_output_bytes ceiling)%Z
  /\ (forall k h l,
        Acquired h l ∈ trace (run ceiling profile request w k) -> l = effective).
Proof.
  cbn zeta. split; [repeat split|]. split.
  - unfold effective_limits; cbn. repeat split; apply Z.le_min_r.
  - apply acquired_limits_run.
Qed.

(** C4: the run ends in a final phase with no sandbox held, and its trace
    releases exactly the sandboxes it acquires.  A request that is well
    formed, passes the scanner and is given a sandbox acquires that one
    sandbox and releases it once, whatever the compile step, the test
    cases, a cancellation or a crash do; any other request acquires and
    releases nothing. *)
Theorem sandbox_released_exactly_once (caller_can_see_hidden : bool) :
  let m := run ceiling profile request w (fuel request) in
  let tr := (execute ceiling profile request w caller_can_see_hidden).2 in
  final (phase m)
  /\ sandbox m = None
  /\ releases tr = acquisitions tr
  /\ (forall h,
        well_formed w = true -> allowed (scan w) = true ->
        provision w limits = Some h ->
        acquisitions tr = [h] /\ releases tr = [h])
  /\ (well_formed w = false \/ allowed (scan w) = false
      \/ provision w limits = None ->
      tr = []).
Proof.
  cbn zeta. unfold execute. cbn [snd].
  pose proof run_final as Hf.
  pose proof (consistent_run (fuel request)) as Hc.
  unfold consistent in Hc. cbv zeta in Hc. fold limits in Hc.
  destruct Hf as [Hf|Hf]; rewrite Hf in Hc.
  - destruct Hc as (Hs & Ht & Hwhy & _). rewrite Ht.
    split; [now left|]. split; [exact Hs|]. split; [reflexivity|].
    split; [|reflexivity].
    intros h Hwf Hal _. destruct Hwhy; congruence.
  - destruct Hc as ((Hwf & Hal) & Hs & Hprov & _).
    split; [now right|]. split; [exact Hs|].
    destruct (provision w limits) as [h|] eqn:Ep.
    + destruct Hprov as (Hacq & Hrel). rewrite Hacq, Hrel.
      split; [reflexivity|]. split.
      * now intros h' _ _ [= <-].
      * intros [H|[H|H]]; congruence.
    + destruct Hprov as (Ht & _). rewrite Ht.
      split; [reflexivity|]. split; [discriminate|reflexivity].
Qed.

Lemma run_add a b :
  run ceiling profile request w (a + b)
  = Nat.iter a next (run ceiling profile request w b).
Proof. unfold run. apply Nat.iter_add. Qed.

(** The first three transitions of a request that is given a sandbox. *)
Lemma run_provisioned h :
  well_formed w = true -> allowed (scan w) = true ->
  provision w limits = Some h ->
  run ceiling profile request w 3
  = {| phase := match compile_command profile with
                | Some _ => Compiling
                | None => Running 0
                end;
       sandbox := Some h; blocking := None; results := [];
       trace := [Acquired h limits] |}.
Proof.
  intros Hwf Hal Hprov. unfold run. cbn [Nat.iter nat_rect].
  unfold step at 3. cbn. rewrite Hwf.
  unfold step at 2. cbn. rewrite Hal.
  unfold step. cbn. fold limits. now rewrite Hprov.
Qed.

(** C5: when the compile step fails, the request ends with the failure
    kind CompileError, score 0 and no case results, no test case was
    started, and the sandbox has been released. *)
Theorem compile_failure_halts
    (caller_can_see_hidden : bool) (h : SandboxHandle)
    (command diagnostics : string) :
  well_formed w = true -> allowed (scan w) = true ->
  provision w limits = Some h ->
  compile_command profile = Some command ->
  compile_step w = inr (CompileFailed diagnostics) ->
  let '(result, tr) := execute ceiling profile request w caller_can_see_hidden in
  failure_kind result = Some CompileError
  /\ success result = false
  /\ (score result == 0)%Q
  /\ case_results result = []
  /\ started_cases tr = []
  /\ tr = [Acquired h limits; CompileStarted; Released h].
Proof.
  intros Hwf Hal Hprov Hcmd Hfail. unfold execute, fuel.
  replace (length (test_cases request) + 6)%nat
    with ((length (test_cases request) + 1) + (2 + 3))%nat by lia.
  rewrite run_add, run_add, (run_provisioned h Hwf Hal Hprov), Hcmd.
  cbn [Nat.iter nat_rect]. unfold next at 2, step. cbn.
  rewrite Hfail. unfold teardown. cbn.
  unfold next at 2, step. cbn.
  rewrite final_fixed by (now right). cbn.
  repeat split; reflexivity.
Qed.










End Orchestrator.

(** ** The weighted score *)

Section Score.

Import Engine.

Lemma tally_fold (tcs : list TestCase) :
  forall (rs : list TestCaseResult) (e t : Q),
    length rs = length tcs ->
    ((fold_left tally (zip tcs rs) (e, t)).1
     == e + Qsum (zip_with (fun tc r => weight tc * indicator (passed r)) tcs rs))%Q
    /\ ((fold_left tally (zip tcs rs) (e, t)).2
        == t + Qsum (weight <$> tcs))%Q.
Proof.
  induction tcs as [|tc tcs IH]; intros [|r rs] e t Hlen; try discriminate.
  - unfold Qsum. cbn [zip zip_with fold_left foldr fmap list_fmap fst snd].
    split; ring.
  - injection Hlen as Hlen.
    change (zip (tc :: tcs) (r :: rs)) with ((tc, r) :: zip tcs rs).
    cbn [fold_left tally].
    destruct (IH rs (if passed r then (e + weight tc)%Q else e)
                (t + weight tc)%Q Hlen) as (He & Ht).
    split.
    + rewrite He. unfold Qsum. cbn [zip_with foldr]. unfold indicator.
      destruct (passed r); ring.
    + rewrite Ht. unfold Qsum. cbn [foldr fmap list_fmap]. ring.
Qed.

(** The one-pass score is the weighted pass rate. *)
Lemma weighted_score_pass_rate tcs rs :
  length rs = length tcs ->
  (weighted_score rs tcs == weighted_pass_rate tcs rs)%Q.
Proof.
  intros Hlen. unfold weighted_score, weighted_pass_rate.
  destruct (tally_fold tcs rs 0%Q 0%Q Hlen) as (He & Ht).
  destruct (fold_left tally (zip tcs rs) (0%Q, 0%Q)) as [earned at_stake].
  cbn [fst snd] in He, Ht. rewrite He, Ht, !Qplus_0_l. reflexivity.
Qed.

(** Redaction keeps the verdicts. *)
Lemma pass_rate_redact flag tcs :
  forall rs,
    zip_with (fun tc r => weight tc * indicator (passed r))%Q tcs
      (zip_with (redact flag) tcs rs)
    = zip_with (fun tc r => weight tc * indicator (passed r))%Q tcs rs.
Proof.
  induction tcs as [|tc tcs IH]; intros [|r rs]; try reflexivity.
  cbn [zip_with]. rewrite IH. f_equal. unfold redact.
  now destruct (is_hidden tc && negb flag).
Qed.

Lemma redact_ids flag tcs :
  forall rs,
    length rs = length tcs ->
    test_case_id <$> zip_with (redact flag) tcs rs = test_case_id <$> rs.
Proof.
  induction tcs as [|tc tcs IH]; intros [|r rs] Hlen; try discriminate;
    [reflexivity|].
  injection Hlen as Hlen. cbn [zip_with]. rewrite !fmap_cons, IH by exact Hlen.
  f_equal. unfold redact. now destruct (is_hidden tc && negb flag).
Qed.

(** The entries of a request without a blocking failure are those of its
    test cases, in the order of the request. *)
Lemma case_results_in_order ceiling profile request w caller_can_see_hidden :
  let result := (execute ceiling profile request w caller_can_see_hidden).1 in
  failure_kind result = None ->
  test_case_id <$> case_results result = case_id <$> test_cases request.
Proof.
  intros result Hnone. subst result. unfold execute in *. cbn [fst] in *.
  pose proof (run_final ceiling profile request w) as Hf.
  pose proof (consistent_run ceiling profile request w (fuel request)) as Hc.
  unfold consistent in Hc. cbv zeta in Hc.
  destruct (blocking (run ceiling profile request w (fuel request))) eqn:Hb;
    [discriminate|].
  destruct Hf as [Hf|Hf]; rewrite Hf in Hc.
  - destruct Hc as (_ & _ & _ & [Hk|Hk]); congruence.
  - destruct Hc as (_ & _ & _ & Hl). destruct (Hl eq_refl) as (Hlen & Hids).
    cbn [aggregate case_results]. now rewrite redact_ids.
Qed.

(** A caller without grading privilege gets no output of a hidden case. *)
Lemma redact_hidden tc r :
  is_hidden tc = true ->
  actual_output (redact false tc r) = None
  /\ reported_expected_output (redact false tc r) = None
  /\ passed (redact false tc r) = passed r.
Proof. intros H. unfold redact. now rewrite H. Qed.

(** C1: for every result that [execute] returns with case results, when
    the weights of the test cases sum to more than zero, the score is the
    sum of the weights of the passed cases over the sum of all weights;
    in scenario B (weights 1.0 and 3.0, only the first case passes) the
    score is 0.25. *)
Theorem score_is_weighted_pass_rate :
  (forall ceiling profile request w caller_can_see_hidden,
      let result := (execute ceiling profile request w caller_can_see_hidden).1 in
      case_results result <> [] ->
      (0 < Qsum (weight <$> test_cases request))%Q ->
      (score result
       == Qsum (zip_with (fun tc r => weight tc * indicator (passed r))
                  (test_cases request) (case_results result))
          / Qsum (weight <$> test_cases request))%Q)
  /\ (let result :=
        (execute scenario_ceiling python_profile scenario_B_request
           scenario_B_world false).1 in
      weight <$> test_cases scenario_B_request = [1%Q; 3%Q]
      /\ passed <$> case_results result = [true; false]
      /\ (score result == 1 # 4)%Q).
Proof.
  split.
  - intros ceiling profile request w flag result Hcases _. subst result.
    unfold execute in *. cbn [fst] in *.
    pose proof (run_final ceiling profile request w) as Hf.
    pose proof (consistent_run ceiling profile request w (fuel request)) as Hc.
    unfold consistent in Hc. cbv zeta in Hc.
    destruct (blocking (run ceiling profile request w (fuel request))) eqn:Hb;
      [now destruct Hcases|].
    assert (Hlen : length (results (run ceiling profile request w (fuel request)))
                   = length (test_cases request)).
    { destruct Hf as [Hf|Hf]; rewrite Hf in Hc.
      - destruct Hc as (_ & _ & _ & [Hk|Hk]); congruence.
      - destruct Hc as (_ & _ & _ & Hl). now destruct (Hl eq_refl). }
    cbn [aggregate score case_results].
    rewrite (weighted_score_pass_rate _ _ Hlen). unfold weighted_pass_rate.
    now rewrite pass_rate_redact.
  - cbv zeta. split; [reflexivity|]. split; vm_compute; reflexivity.
Qed.

(** C1, witness: scenario B run through the general statement. *)
Lemma score_is_weighted_pass_rate_witness :
  let result :=
    (execute scenario_ceiling python_profile scenario_B_request
       scenario_B_world false).1 in
  case_results result <> []
  /\ (0 < Qsum (weight <$> test_cases scenario_B_request))%Q
  /\ (score result
      == Qsum (zip_with (fun tc r => weight tc * indicator (passed r))
                 (test_cases scenario_B_request) (case_results result))
         / Qsum (weight <$> test_cases scenario_B_request))%Q.
Proof.
  intros result.
  assert (H1 : case_results result <> []) by (vm_compute; discriminate).
  assert (H2 : (0 < Qsum (weight <$> test_cases scenario_B_request))%Q)
    by (vm_compute; reflexivity).
  split; [exact H1|]. split; [exact H2|].
  exact (proj1 score_is_weighted_pass_rate scenario_ceiling python_profile
           scenario_B_request scenario_B_world false H1 H2).
Defined.

End Score.

(** ** The scenarios *)

Section Scenarios.

Import Engine.

(** C3, witness: scenario D asks for more memory and processes than the
    ceiling allows and for fewer open files. *)
Lemma effective_limits_clamped_witness :
  let effective :=
    effective_limits (requested_limits cpp_profile scenario_D_request)
      scenario_ceiling in
  memory_mb effective = 256%Z
  /\ max_processes effective = 16%Z
  /\ max_open_files effective = 8%Z
  /\ (max_processes effective <= max_processes scenario_ceiling)%Z.
Proof.
  intros effective.
  destruct (effective_limits_clamped scenario_ceiling cpp_profile
              scenario_D_request scenario_D_world)
    as ((Hm & _ & _ & Hp & Hf & _) & (_ & _ & _ & Hle & _) & _).
  fold effective in Hm, Hp, Hf, Hle.
  rewrite Hm, Hp, Hf. repeat split. exact Hle.
Defined.

(** C4, witness: in scenario C, with a timeout on the way, sandbox 7 is
    acquired once and released once. *)
Lemma sandbox_released_exactly_once_witness :
  let tr := (execute scenario_ceiling python_profile scenario_B_request
               scenario_C_world false).2 in
  acquisitions tr = [7%nat] /\ releases tr = [7%nat].
Proof.
  intros tr.
  destruct (sandbox_released_exactly_once scenario_ceiling python_profile
              scenario_B_request scenario_C_world false)
    as (_ & _ & _ & H & _).
  exact (H 7%nat eq_refl eq_refl eq_refl).
Defined.

(** C5, witness: scenario D. *)
Lemma compile_failure_halts_witness :
  let '(result, tr) :=
    execute scenario_ceiling cpp_profile scenario_D_request scenario_D_world false in
  failure_kind result = Some CompileError
  /\ success result = false
  /\ (score result == 0)%Q
  /\ case_results result = []
  /\ started_cases tr = []
  /\ tr = [Acquired 7%nat
             (effective_limits (requested_limits cpp_profile scenario_D_request)
                scenario_ceiling);
           CompileStarted; Released 7%nat].
Proof.
  exact (compile_failure_halts scenario_ceiling cpp_profile scenario_D_request
           scenario_D_world false 7%nat _ _
           eq_refl eq_refl eq_refl eq_refl eq_refl).
Defined.


Example scenario_C_trace :
  (execute scenario_ceiling python_profile scenario_B_request
     scenario_C_world false).2
  = [ Acquired 7%nat
        (effective_limits (default_limits python_profile) scenario_ceiling);
      CaseStarted 0; ProcessGroupKilled 0; CaseStarted 1; Released 7%nat ].
Proof. reflexivity. Qed.

(** A cancellation during the second case keeps the first record, marks
    the rest as not run and still releases the sandbox. *)
Example cancelled_run :
  let w := {| well_formed := true;
              scan := {| allowed := true; violations := [] |};
              provision := fun _ => Some 3%nat;
              compile_step := inr Compiled;
              run_step := fun i => match i with
                                   | O => inr (Exited 0 "8" "" 5)
                                   | _ => inl Cancel
                                   end |} in
  let '(result, tr) :=
    execute scenario_ceiling python_profile scenario_B_request w false in
  passed <$> case_results result = [true; false]
  /\ error_detail <$> case_results result = [None; Some "not run"%string]
  /\ releases tr = [3%nat].
Proof. repeat split. Qed.

End Scenarios.

(** * Further properties of the front end *)

(** ** The panel *)

Section Panel.

Import CodeExecutionPanel.

Lemma summaryChip_label (testResults : list TestCaseResult.t) :
  exists passed,
    passed <= length testResults
    /\ chipLabel (summaryChip testResults)
       = number_to_string passed ++ str "/"
         ++ number_to_string (length testResults).
Proof.
  pose proof (getTestResultsSummary_count testResults) as H.
  unfold summaryChip.
  destruct (getTestResultsSummary testResults) as [passed total].
  destruct H as (Hle & -> & _). now exists passed.
Qed.

(** X1: the chip of the test results tab is green exactly when every entry
    passed, which includes the empty list of entries; the number of
    passed entries it shows is at most the total. *)
Theorem summaryChip_success_iff (testResults : list TestCaseResult.t) :
  (chipColor (summaryChip testResults) = success
   <-> Forall (fun r => TestCaseResult.passed r = true) testResults)
  /\ chipColor (summaryChip []) = success
  /\ exists passed,
       passed <= length testResults
       /\ chipLabel (summaryChip testResults)
          = number_to_string passed ++ str "/"
            ++ number_to_string (length testResults).
Proof.
  pose proof (getTestResultsSummary_count testResults) as H.
  split; [|split; [reflexivity|]].
  - unfold summaryChip.
    destruct (getTestResultsSummary testResults) as [passed total].
    destruct H as (Hle & Htotal & Hall). cbn [chipColor].
    rewrite <- Hall. destruct (Nat.eqb_spec passed total); split; congruence.
  - apply summaryChip_label.
Qed.

(** X2: the output box is there only for a non-empty output and then
    shows that output: the text 'No output' written as its fallback is
    never reached, and a result with empty output and no error leaves
    the tab empty. *)
Theorem output_fallback_unreachable (result : ExecutionResult.t) :
  exists tab,
    renderOutput (Some result) = Some tab
    /\ (forall text, outputPaper tab = Some text ->
                     text = ExecutionResult.output result /\ text <> str "")
    /\ (ExecutionResult.output result = str "" -> outputPaper tab = None)
    /\ (ExecutionResult.output result = str "" ->
        ExecutionResult.error result = None ->
        outputAlert tab = None /\ outputPaper tab = None).
Proof.
  eexists. split; [reflexivity|]. cbn [outputPaper outputAlert].
  destruct (ExecutionResult.output result) as [|c s] eqn:Hout; cbn.
  - split; [discriminate|]. split; [reflexivity|].
    intros _ ->. now split.
  - split; [|split; discriminate].
    intros text [= <-]. now split.
Qed.

Lemma renderTestResults_rows result results :
  ExecutionResult.testResults result = Some results ->
  renderTestResults (Some result)
  = Some (imap (renderRow (length results)) results).
Proof.
  intros H. unfold renderTestResults. cbn [mbind option_bind]. now rewrite H.
Qed.

(** X3: a click on "Run Tests" in the coding interface always ends on the
    test results tab with [isExecuting] reset, and the tab then has one
    row per test case of the question, in order: row [k] is keyed by the
    id of test case [k], is titled "Test Case k+1" and is followed by a
    divider unless it is the last; the chip counts all of them. *)
Theorem run_tests_click_shows_rows
    (question : CodingQuestion.t) (draws : nat -> float)
    (st : CodingInterface.State) (pos activeTab : nat) :
  let '(st', _, tab) :=
    CodeExecutionPanelActions.handleRunTests
      (CodeExecutionPanelActions.onRunTests question draws) (st, pos) activeTab in
  let n := length (CodingQuestion.testCases question) in
  tab = 1%nat
  /\ CodingInterface.isExecuting st' = false
  /\ CodingInterface.code st' = CodingInterface.code st
  /\ exists rows chip,
       renderTestResults (CodingInterface.executionResult st') = Some rows
       /\ length rows = n
       /\ (forall k testCase,
              CodingQuestion.testCases question !! k = Some testCase ->
              exists row,
                rows !! k = Some row
                /\ key row = TestCase.id testCase
                /\ title row = str "Test Case " ++ number_to_string (k + 1)
                /\ (divider row = true <-> k + 1 < n))
       /\ testResultsTabChip (CodingInterface.executionResult st') = Some chip
       /\ exists passed,
            passed <= n
            /\ chipLabel chip
               = number_to_string passed ++ str "/" ++ number_to_string n.
Proof.
  unfold CodeExecutionPanelActions.handleRunTests,
    CodeExecutionPanelActions.onRunTests. cbn [fst snd].
  pose proof (handleRunTests_result question st draws pos) as Hres.
  assert (Hst : forall r st' p,
             CodingInterface.handleRunTests question st draws pos = (r, st', p) ->
             st' = CodingInterface.setIsExecuting false
                     (CodingInterface.setExecutionResult (Some r)
                        (CodingInterface.setIsExecuting true st))).
  { unfold CodingInterface.handleRunTests, mbind, Rand_bind, mret, Rand_ret.
    destruct (CodingInterface.mockExecutionResult question draws pos).
    now intros r st' p [= <- <- _]. }
  destruct (CodingInterface.handleRunTests question st draws pos)
    as [[result st'] pos'] eqn:E.
  specialize (Hst _ _ _ eq_refl). subst st'. cbn [fst] in Hres. cbv zeta.
  cbn [CodingInterface.isExecuting CodingInterface.code
       CodingInterface.executionResult CodingInterface.setIsExecuting
       CodingInterface.setExecutionResult].
  do 3 (split; [reflexivity|]).
  pose proof (mockExecutionResult_testResults question draws pos) as Htr.
  rewrite <- Hres in Htr.
  set (results := (map_with_index CodingInterface.mockTestResult 0
                     (CodingQuestion.testCases question) draws (S (S pos))).1) in *.
  assert (Hlen : length results = length (CodingQuestion.testCases question))
    by apply mock_results_length.
  exists (imap (renderRow (length results)) results), (summaryChip results).
  split; [now apply renderTestResults_rows|].
  split; [now rewrite length_imap|].
  split.
  - intros k testCase Hk.
    pose proof (mock_results_lookup draws _ 0 (S (S pos)) k testCase Hk) as Hr.
    fold results in Hr.
    eexists. split; [rewrite list_lookup_imap, Hr; reflexivity|].
    cbn [key title divider renderRow]. split; [reflexivity|].
    split; [reflexivity|].
    rewrite bool_decide_eq_true, Hlen. lia.
  - split.
    + unfold testResultsTabChip. cbn [mbind option_bind]. now rewrite Htr.
    + destruct (summaryChip_label results) as (passed & Hle & Hlab).
      exists passed. rewrite <- Hlen. now split.
Qed.

Lemma startsWith_app (prefix s : jsstring) : startsWith (prefix ++ s) prefix = true.
Proof.
  induction prefix as [|p prefix IH]; [now destruct s|].
  cbn [app startsWith]. now rewrite N.eqb_refl, IH.
Qed.

(** X4: a click on "Run Code" in the coding interface always ends on the
    output tab with [isExecuting] reset and the buffer untouched; the
    result it stores has no test results, so whatever the test results
    tab showed before, it is back to its hint and the chip is gone; the
    output box starts with "Code executed successfully!" and no error is
    shown. *)
Theorem run_code_click_drops_test_results
    (draws : nat -> float) (st : CodingInterface.State) (pos activeTab : nat) :
  let '(st', _, tab) :=
    CodeExecutionPanelActions.handleRunCode
      (CodeExecutionPanelActions.onRunCode draws) (st, pos) activeTab in
  tab = 0%nat
  /\ CodingInterface.isExecuting st' = false
  /\ CodingInterface.code st' = CodingInterface.code st
  /\ CodingInterface.language st' = CodingInterface.language st
  /\ renderTestResults (CodingInterface.executionResult st') = None
  /\ testResultsTabChip (CodingInterface.executionResult st') = None
  /\ exists shown text,
       renderOutput (CodingInterface.executionResult st') = Some shown
       /\ outputAlert shown = None
       /\ outputPaper shown = Some text
       /\ startsWith text (str "Code executed successfully!") = true.
Proof.
  unfold CodeExecutionPanelActions.handleRunCode,
    CodeExecutionPanelActions.onRunCode, CodingInterface.handleRunCode,
    mbind, Rand_bind, mret, Rand_ret, random.
  cbn [fst snd CodingInterface.isExecuting CodingInterface.code
       CodingInterface.language CodingInterface.executionResult
       CodingInterface.setIsExecuting CodingInterface.setExecutionResult].
  do 6 (split; [reflexivity|]).
  eexists. eexists. split; [reflexivity|]. cbn [outputAlert outputPaper].
  split; [reflexivity|].
  cbn [ExecutionResult.output lines].
  split; [reflexivity|]. apply startsWith_app.
Qed.

End Panel.

(** ** Sequences of language selections, and reset *)

Section Switches.

Import CodingInterface.

Lemma handleLanguageChange_language newLanguage st :
  language (handleLanguageChange newLanguage st) = newLanguage.
Proof.
  unfold handleLanguageChange.
  destruct (bool_decide (newLanguage ≠ language st)) eqn:E.
  - now destruct (_ || _).
  - apply bool_decide_eq_false in E.
    destruct (decide (newLanguage = language st)) as [->|Hne]; [reflexivity|].
    now destruct E.
Qed.

Lemma handleLanguageChange_replace newLanguage st :
  newLanguage <> language st ->
  blank (code st) \/ code st = getDefaultCodeForLanguage (language st) ->
  code (handleLanguageChange newLanguage st) = getDefaultCodeForLanguage newLanguage.
Proof.
  intros Hne H. unfold handleLanguageChange.
  rewrite bool_decide_eq_true_2 by exact Hne.
  assert (Hc : negb (truthy (trim (code st)))
               || bool_decide (code st = getDefaultCodeForLanguage (language st))
               = true).
  { apply orb_true_iff. destruct H as [H|H].
    - left. now apply not_truthy_trim.
    - right. now apply bool_decide_eq_true. }
  now rewrite Hc.
Qed.

Lemma handleLanguageChange_keep newLanguage st :
  ~ blank (code st) ->
  code st <> getDefaultCodeForLanguage (language st) ->
  code (handleLanguageChange newLanguage st) = code st.
Proof.
  intros Hb Hd. unfold handleLanguageChange.
  destruct (bool_decide (newLanguage ≠ language st)); [|reflexivity].
  assert (Hc : negb (truthy (trim (code st)))
               || bool_decide (code st = getDefaultCodeForLanguage (language st))
               = false).
  { apply orb_false_iff. split.
    - destruct (negb _) eqn:E; [|reflexivity].
      apply not_truthy_trim in E. now destruct Hb.
    - now apply bool_decide_eq_false. }
  now rewrite Hc.
Qed.

Lemma switches_snoc st languages language :
  switches st (languages ++ [language])
  = handleLanguageChange language (switches st languages).
Proof. unfold switches. now rewrite foldl_snoc. Qed.

(** X5: a buffer that is blank or holds the starter code of the current
    language keeps following the language menu: after any sequence of
    selections either nothing has changed at all, or the buffer holds the
    starter code of the language that is now selected. *)
Theorem starter_code_follows_language
    (st : State) (languages : list SupportedLanguage) :
  blank (code st) \/ code st = getDefaultCodeForLanguage (language st) ->
  switches st languages = st
  \/ code (switches st languages)
     = getDefaultCodeForLanguage (language (switches st languages)).
Proof.
  intros H. induction languages as [|l languages IH] using rev_ind.
  - now left.
  - rewrite switches_snoc.
    set (st1 := switches st languages) in *.
    destruct (decide (l = language st1)) as [->|Hne].
    + rewrite handleLanguageChange_same. exact IH.
    + right. rewrite handleLanguageChange_language.
      apply handleLanguageChange_replace; [exact Hne|].
      destruct IH as [->|IH]; [exact H|now right].
Qed.

(** X6: code of the user's own, which is not blank and is the starter
    code of none of the languages gone through, is left as it is by any
    sequence of selections, and the language ends as the last selection. *)
Theorem own_code_survives_switches
    (st : State) (languages : list SupportedLanguage) :
  ~ blank (code st) ->
  (forall l, l ∈ language st :: languages ->
             code st <> getDefaultCodeForLanguage l) ->
  code (switches st languages) = code st
  /\ language (switches st languages) = default (language st) (last languages)
  /\ executionResult (switches st languages) = executionResult st.
Proof.
  intros Hb Hd. induction languages as [|l languages IH] using rev_ind.
  - repeat split.
  - rewrite switches_snoc, last_snoc.
    destruct IH as (Hc & Hl & He).
    { intros l' Hl'. apply Hd.
      rewrite elem_of_cons, elem_of_app. rewrite elem_of_cons in Hl'. tauto. }
    set (st1 := switches st languages) in *.
    split; [|split].
    + rewrite handleLanguageChange_keep; [exact Hc| now rewrite Hc |].
      rewrite Hc, Hl. apply Hd.
      rewrite elem_of_cons, elem_of_app.
      destruct (last languages) as [l'|] eqn:El; cbn.
      * apply last_Some_elem_of in El. tauto.
      * now left.
    + apply handleLanguageChange_language.
    + rewrite <- He. unfold handleLanguageChange.
      destruct (bool_decide _); [|reflexivity]. now destruct (_ || _).
Qed.

(** X5, witness: from the Python starter code through Java and Go back
    to Java. *)
Lemma starter_code_follows_language_witness :
  let st := {| code := getDefaultCodeForLanguage (str "python");
               language := str "python";
               isExecuting := false; executionResult := None |} in
  (blank (code st) \/ code st = getDefaultCodeForLanguage (language st))
  /\ code (switches st [str "java"; str "go"; str "java"])
     = getDefaultCodeForLanguage (str "java").
Proof.
  intros st.
  assert (H : blank (code st) \/ code st = getDefaultCodeForLanguage (language st))
    by (right; reflexivity).
  split; [exact H|].
  destruct (starter_code_follows_language st [str "java"; str "go"; str "java"] H)
    as [Hsame|Hcode].
  - apply (f_equal language) in Hsame. vm_compute in Hsame. discriminate.
  - exact Hcode.
Defined.

(** X6, witness: a one-line program survives Java and Python. *)
Lemma own_code_survives_switches_witness :
  let st := {| code := str "print(6 * 7)"; language := str "python";
               isExecuting := false; executionResult := None |} in
  code (switches st [str "java"; str "python"]) = str "print(6 * 7)"
  /\ language (switches st [str "java"; str "python"]) = str "python".
Proof.
  intros st.
  assert (Hb : ~ blank (code st)) by compute_done.
  assert (Hd : forall l, l ∈ language st :: [str "java"; str "python"] ->
                         code st <> getDefaultCodeForLanguage l).
  { intros l Hl.
    repeat (apply elem_of_cons in Hl as [->|Hl]; [vm_compute; discriminate|]).
    now apply elem_of_nil in Hl. }
  destruct (own_code_survives_switches st [str "java"; str "python"] Hb Hd)
    as (Hc & Hl & _).
  split; [exact Hc | exact Hl].
Defined.

(** X7: reset clears the execution result, keeps the language and is
    idempotent.  For a question without starter code it leaves the buffer
    ready to follow the language menu.  For a question with starter code
    it installs that code whatever language is selected, and a later
    selection keeps it there unless it is blank or is the starter code of
    the selected language. *)
Theorem handleReset_then_switch
    (question : CodingQuestion.t) (st : State) (newLanguage : SupportedLanguage) :
  newLanguage <> language st ->
  let st1 := handleReset question st in
  executionResult st1 = None
  /\ language st1 = language st
  /\ handleReset question st1 = st1
  /\ (CodingQuestion.starterCode question = str "" ->
      code (handleLanguageChange newLanguage st1)
      = getDefaultCodeForLanguage newLanguage)
  /\ (CodingQuestion.starterCode question <> str "" ->
      code st1 = CodingQuestion.starterCode question
      /\ (~ blank (CodingQuestion.starterCode question) ->
          CodingQuestion.starterCode question
          <> getDefaultCodeForLanguage (language st) ->
          code (handleLanguageChange newLanguage st1)
          = CodingQuestion.starterCode question)).
Proof.
  intros Hne st1. subst st1. unfold handleReset.
  cbn [executionResult language code setExecutionResult setCode].
  split; [reflexivity|]. split; [reflexivity|]. split; [reflexivity|].
  destruct (CodingQuestion.starterCode question) as [|c s] eqn:Hs; cbn [or_else truthy].
  - split; [intros _|intros H; now destruct H].
    apply handleLanguageChange_replace; [exact Hne|]. now right.
  - split; [discriminate|]. intros _. split; [reflexivity|].
    intros Hb Hd. now apply handleLanguageChange_keep.
Qed.

(** X7, witness: the demo question, reset in a Java editor and switched
    to Go, still shows its Python starter code. *)
Lemma handleReset_then_switch_witness :
  let st := {| code := str "class A {}"; language := str "java";
               isExecuting := false; executionResult := None |} in
  str "go" <> language st
  /\ code (handleLanguageChange (str "go") (handleReset mockCodingQuestion st))
     = CodingQuestion.starterCode mockCodingQuestion.
Proof.
  intros st.
  assert (Hne : str "go" <> language st) by (vm_compute; discriminate).
  split; [exact Hne|].
  destruct (handleReset_then_switch mockCodingQuestion st (str "go") Hne)
    as (_ & _ & _ & _ & H).
  destruct H as (_ & H); [vm_compute; discriminate|].
  apply H; [compute_done | vm_compute; discriminate].
Defined.

End Switches.

(** ** Auto-save *)

Section AutoSaving.

Import AutoSave.




(** X9: an edit that is taken back before the timer expires leaves
    the "Auto-saving..." notice on with no timer alive and nothing saved,
    and neither further renders nor the passing of time take it away. *)
Theorem autosave_notice_stays (opened edited : jsstring) (later : list Event) :
  edited <> opened ->
  Forall (fun e => e = OnAutoSaveChanged \/ e = TimerFired) later ->
  let st := run true (mounted opened) (CodeSet edited :: CodeSet opened :: later) in
  hasUnsavedChanges st = true
  /\ timer st = None
  /\ saved st = []
  /\ code st = opened.
Proof.
  intros Hne Hlater. cbv zeta.
  set (stuck := {| code := opened; lastSavedCodeRef := opened; timer := None;
                   hasUnsavedChanges := true; saved := [] |}).
  assert (H2 : run true (mounted opened) [CodeSet edited; CodeSet opened] = stuck).
  { assert (H1 : step true (mounted opened) (CodeSet edited)
                 = {| code := edited; lastSavedCodeRef := opened;
                      timer := Some edited; hasUnsavedChanges := true;
                      saved := [] |}).
    { cbn [step mounted code]. case_bool_decide; [congruence|].
      unfold effect. cbn [code lastSavedCodeRef].
      case_bool_decide; [reflexivity|tauto]. }
    unfold run. cbn [foldl]. rewrite H1. cbn [step code].
    case_bool_decide; [congruence|].
    unfold effect. cbn [code lastSavedCodeRef].
    case_bool_decide; [tauto|reflexivity]. }
  change (CodeSet edited :: CodeSet opened :: later)
    with ([CodeSet edited; CodeSet opened] ++ later).
  unfold run in *. rewrite foldl_app, H2.
  assert (Hfix : foldl (step true) stuck later = stuck).
  { induction Hlater as [|e later He _ IH]; [reflexivity|].
    cbn [foldl]. destruct He as [-> | ->]; cbn [step].
    - unfold effect. cbn [code lastSavedCodeRef stuck].
      case_bool_decide; [tauto|exact IH].
    - exact IH. }
  rewrite Hfix. now repeat split.
Qed.

(** X9, witness *)
Lemma autosave_notice_stays_witness :
  hasUnsavedChanges
    (run true (mounted (str "x = 1"))
       [CodeSet (str "x = 12"); CodeSet (str "x = 1"); TimerFired; OnAutoSaveChanged])
  = true.
Proof.
  refine (proj1 (autosave_notice_stays (str "x = 1") (str "x = 12")
                   [TimerFired; OnAutoSaveChanged] _ _)).
  - vm_compute; discriminate.
  - constructor; [now right|]. constructor; [now left|]. constructor.
Defined.

End AutoSaving.

(** ** The language menu *)

Section Menu.

Import LanguageSelector.

Lemma filter_sublist {A} (f : A -> bool) (l : list A) :
  List.filter f l `sublist_of` l.
Proof.
  induction l as [|a l IH]; cbn [List.filter]; [constructor|].
  destruct (f a); now constructor.
Qed.

Lemma configs_resolve :
  Forall (fun config => getLanguageConfig (LanguageConfig.id config) = Some config)
    SUPPORTED_LANGUAGES.
Proof.
  repeat (apply Forall_cons; split; [vm_compute; reflexivity|]).
  apply Forall_nil. exact I.
Qed.

(** X10: with [allowedLanguages] given, the menu lists the registered
    languages whose id is among them, in the order of the registry: the
    order and repetitions of [allowedLanguages] do not matter, ids that
    are not registered are dropped without notice, and an empty array
    gives an empty menu.  Every entry of the menu resolves to itself in
    the registry.  Without [allowedLanguages] the menu is the registry. *)
Theorem availableLanguages_menu (allowed : list SupportedLanguage) :
  let menu := availableLanguages (Some allowed) in
  menu `sublist_of` SUPPORTED_LANGUAGES
  /\ (forall config,
        config ∈ menu
        <-> config ∈ SUPPORTED_LANGUAGES /\ LanguageConfig.id config ∈ allowed)
  /\ (forall config, config ∈ menu ->
                     getLanguageConfig (LanguageConfig.id config) = Some config)
  /\ (forall allowed',
        (forall l, l ∈ allowed <-> l ∈ allowed') ->
        availableLanguages (Some allowed') = menu)
  /\ availableLanguages (Some []) = []
  /\ availableLanguages None = SUPPORTED_LANGUAGES.
Proof.
  cbv zeta. unfold availableLanguages.
  assert (Hin : forall config,
             config ∈ List.filter
                        (fun lang => bool_decide (LanguageConfig.id lang ∈ allowed))
                        SUPPORTED_LANGUAGES
             <-> config ∈ SUPPORTED_LANGUAGES /\ LanguageConfig.id config ∈ allowed).
  { intros config. rewrite !list_elem_of_In, filter_In, bool_decide_eq_true.
    now rewrite <- !list_elem_of_In. }
  split; [apply filter_sublist|]. split; [exact Hin|]. split.
  - intros config Hc. apply Hin in Hc as (Hc & _).
    pose proof configs_resolve as H. rewrite Forall_forall in H. auto.
  - split; [|split; reflexivity].
    intros allowed' Hsame. apply filter_ext. intros config.
    apply bool_decide_ext. symmetry. apply Hsame.
Qed.

Example demo_menu :
  LanguageConfig.name
    <$> availableLanguages
          (Some [str "cpp"; str "python"; str "cobol"; str "java"; str "python";
                 str "javascript"; str "typescript"])
  = [str "Python"; str "JavaScript"; str "TypeScript"; str "Java"; str "C++"].
Proof. reflexivity. Qed.

End Menu.

(** ** The hook on top of the service *)

Section HookAndService.

Import UseCodeExecution.






Lemma run_resets_isExecuting (options : Options) (api : CodeExecutionService.Api)
    (st : State) :
  returns_normally (onExecutionStart options) () ->
  (forall code language input,
      isExecuting (executeCode options api code language input st).2 = false)
  /\ (forall code language testCases,
        isExecuting (runTests options api code language testCases st).2 = false).
Proof.
  intros Hstart. unfold returns_normally in Hstart.
  split; intros code language arg; unfold executeCode, runTests;
    unfold mbind at 1 2 3, M_bind, setIsExecuting at 1, setError,
      call_optional at 1, lift;
    (destruct (onExecutionStart options) as [f|];
     [rewrite Hstart|unfold mret, M_ret]); apply finally_resets.
Qed.

(** X13: [clearResults] after a run brings the hook back to where it
    started: whatever the service and the callbacks did, once
    [onExecutionStart] has not thrown the three cells are [false], [null]
    and [null] again. *)
Theorem clearResults_after_run
    (options : Options) (api : CodeExecutionService.Api) (st : State) :
  returns_normally (onExecutionStart options) () ->
  let pristine := {| isExecuting := false; executionResult := None; error := None |} in
  (forall code language input,
      clearResults (executeCode options api code language input st).2
      = (Returns (), pristine))
  /\ (forall code language testCases,
        clearResults (runTests options api code language testCases st).2
        = (Returns (), pristine)).
Proof.
  intros Hstart pristine. subst pristine.
  destruct (run_resets_isExecuting options api st Hstart) as (He & Ht).
  split; intros code language arg;
    [specialize (He code language arg) | specialize (Ht code language arg)];
    unfold clearResults, mbind, M_bind, setExecutionResult, setError;
    cbn [isExecuting executionResult error];
    [rewrite He | rewrite Ht]; reflexivity.
Qed.

(** X13, witness *)
Lemma clearResults_after_run_witness :
  let api := {| CodeExecutionService.post_run :=
                  fun _ => CodeExecutionService.OtherError (ErrorObject (str "boom"));
                CodeExecutionService.post_test :=
                  fun _ => CodeExecutionService.OtherError (ErrorObject (str "boom")) |} in
  let options := {| onExecutionStart := None; onExecutionComplete := None;
                    onExecutionError := None |} in
  (clearResults
     (executeCode options api (str "x") (str "go") None
        {| isExecuting := false; executionResult := None;
           error := Some (str "old") |}).2).2
  = {| isExecuting := false; executionResult := None; error := None |}.
Proof.
  intros api options.
  destruct (clearResults_after_run options api
              {| isExecuting := false; executionResult := None;
                 error := Some (str "old") |} I) as (H & _).
  now rewrite (H (str "x") (str "go") None).
Defined.

(** X14: [validateSyntax] of the hook touches no cell and rejects only
    when the request failed with a thrown [null] or [undefined]; for every
    other failure of the request it answers [valid = false] with exactly
    one entry in [errors], and an answer of the server is passed on as it
    is. *)
Theorem validateSyntax_never_rejects
    (post_validate : jsstring -> SupportedLanguage
                     -> CodeExecutionService.HttpOutcome CodeExecutionService.Validation)
    (code : jsstring) (language : SupportedLanguage) :
  let answer := validateSyntax post_validate code language in
  (forall data, post_validate code language = CodeExecutionService.HttpResponse data ->
                answer = Returns data)
  /\ (forall reason, answer = Throws reason ->
        post_validate code language = CodeExecutionService.HttpOtherError NullValue
        \/ post_validate code language
           = CodeExecutionService.HttpOtherError UndefinedValue)
  /\ (forall v, answer = Returns v ->
        (forall data, post_validate code language
                      <> CodeExecutionService.HttpResponse data) ->
        CodeExecutionService.valid v = false
        /\ exists entry, CodeExecutionService.errors v = Some [entry]).
Proof.
  cbv zeta. unfold validateSyntax, CodeExecutionService.validateSyntax.
  destruct (post_validate code language) as [data|responseMessage message|err].
  - split; [now intros ? [= <-]|]. split; [discriminate|].
    intros v _ H. now destruct (H data).
  - split; [discriminate|]. split; [discriminate|].
    intros v [= <-] _. split; [reflexivity|]. eauto.
  - split; [discriminate|]. split.
    + destruct err; cbn; try discriminate; auto.
    + destruct err; cbn; try discriminate; intros v [= <-] _;
        (split; [reflexivity|]); eauto.
Qed.

End HookAndService.

(** ** The HTTP client of the execution service *)

Section Client.

Import ApiClient.

(** X15: the request interceptor adds the Authorization header exactly
    when [localStorage] holds a non-empty [authToken], and touches no
    other header.  After a 401 answer the token is gone, the other
    entries of [localStorage] are as before and the page is sent to
    /login, so the next request goes out with the headers it was given;
    an error with any other status changes nothing. *)
Theorem unauthorized_answer_signs_out
    (browser : Browser) (headers : gmap jsstring jsstring) (status : option nat) :
  (onRequest browser headers !! str "Authorization"
   = match localStorage browser !! str "authToken" with
     | Some token =>
         if truthy token then Some (str "Bearer " ++ token)
         else headers !! str "Authorization"
     | None => headers !! str "Authorization"
     end)
  /\ (forall name, name <> str "Authorization" ->
                   onRequest browser headers !! name = headers !! name)
  /\ (let browser' := onResponseError (Some 401%nat) browser in
      localStorage browser' !! str "authToken" = None
      /\ (forall key, key <> str "authToken" ->
                      localStorage browser' !! key = localStorage browser !! key)
      /\ navigatedTo browser' = Some (str "/login")
      /\ onRequest browser' headers = headers)
  /\ (status <> Some 401%nat -> onResponseError status browser = browser).
Proof.
  unfold onRequest, onResponseError. split; [|split; [|split]].
  - destruct (localStorage browser !! str "authToken") as [token|]; [|reflexivity].
    destruct (truthy token); [|reflexivity]. apply lookup_insert_eq.
  - intros name Hname.
    destruct (localStorage browser !! str "authToken") as [token|]; [|reflexivity].
    destruct (truthy token); [|reflexivity]. now apply lookup_insert_ne.
  - rewrite bool_decide_eq_true_2 by reflexivity. cbn [localStorage navigatedTo].
    rewrite lookup_delete_eq. repeat split.
    intros key Hkey. now apply lookup_delete_ne.
  - intros Hs. now rewrite bool_decide_eq_false_2.
Qed.

(** X16: the execution service and the auth slice do not share a key of
    [localStorage].  No action of the slice and no login writes or
    removes [authToken], the entry that the request interceptor reads: a
    login stores the token under [access_token], and when [authToken]
    was not there before, the requests of the execution service go out
    without an Authorization header after it.  In turn a 401 answer to
    the execution service leaves the tokens of the slice in place. *)
Theorem login_token_is_not_sent
    (stored : gmap jsstring jsstring) (actions : list AuthSlice.Action)
    (data : AuthSlice.AuthResponse) (headers : gmap jsstring jsstring)
    (navigated : option jsstring) :
  let '(st, stored') :=
    AuthSlice.loginUser (inl data) (AuthSlice.dispatched stored actions) in
  AuthSlice.isAuthenticated st = true
  /\ stored' !! str "access_token" = Some (AuthSlice.access_token data)
  /\ stored' !! str "authToken" = stored !! str "authToken"
  /\ (stored !! str "authToken" = None ->
      onRequest {| localStorage := stored'; navigatedTo := navigated |} headers
      = headers)
  /\ localStorage
       (onResponseError (Some 401%nat)
          {| localStorage := stored'; navigatedTo := navigated |})
     !! str "access_token"
     = Some (AuthSlice.access_token data).
Proof.
  assert (Hkeep : forall s action,
             (AuthSlice.reducer s action).2 !! str "authToken"
             = s.2 !! str "authToken").
  { intros [st ls] action. destruct action; cbn; try reflexivity;
      unfold AuthSlice.clearTokens;
      now rewrite !lookup_delete_ne by (vm_compute; discriminate). }
  assert (Hdisp : (AuthSlice.dispatched stored actions).2 !! str "authToken"
                  = stored !! str "authToken").
  { unfold AuthSlice.dispatched.
    induction actions as [|a actions IH] using rev_ind; [reflexivity|].
    now rewrite foldl_snoc, Hkeep. }
  destruct (AuthSlice.dispatched stored actions) as [st0 ls0].
  cbn [snd] in Hdisp. unfold AuthSlice.loginUser.
  cbn [AuthSlice.reducer AuthSlice.loading AuthSlice.signedIn
       AuthSlice.isAuthenticated].
  split; [reflexivity|].
  assert (Haccess : (<[str "refresh_token" := AuthSlice.refresh_token data]>
                       (<[str "access_token" := AuthSlice.access_token data]> ls0))
                    !! str "access_token" = Some (AuthSlice.access_token data)).
  { rewrite lookup_insert_ne by (vm_compute; discriminate).
    apply lookup_insert_eq. }
  assert (Hauth : (<[str "refresh_token" := AuthSlice.refresh_token data]>
                     (<[str "access_token" := AuthSlice.access_token data]> ls0))
                  !! str "authToken" = stored !! str "authToken").
  { now rewrite !lookup_insert_ne by (vm_compute; discriminate). }
  split; [exact Haccess|]. split; [exact Hauth|]. split.
  - intros Hnone. unfold onRequest. cbn [localStorage].
    now rewrite Hauth, Hnone.
  - unfold onResponseError. rewrite bool_decide_eq_true_2 by reflexivity.
    cbn [localStorage]. now rewrite lookup_delete_ne by (vm_compute; discriminate).
Qed.

(** X17: [getSupportedLanguages] never throws, and what it answers when
    the request fails agrees with the registry of the front end: the same
    ids with the same names in the same order, each with the file
    extension of the registry first among its extensions. *)
Theorem getSupportedLanguages_fallback
    (outcome : CodeExecutionService.HttpOutcome (list CodeExecutionService.LanguageInfo)) :
  (exists languages,
      CodeExecutionService.getSupportedLanguages outcome = Returns languages
      /\ ((forall data, outcome <> CodeExecutionService.HttpResponse data) ->
          languages = CodeExecutionService.defaultLanguages))
  /\ CodeExecutionService.info_id <$> CodeExecutionService.defaultLanguages
     = LanguageConfig.id <$> SUPPORTED_LANGUAGES
  /\ CodeExecutionService.info_name <$> CodeExecutionService.defaultLanguages
     = LanguageConfig.name <$> SUPPORTED_LANGUAGES
  /\ (fun info => head (CodeExecutionService.info_extensions info))
       <$> CodeExecutionService.defaultLanguages
     = (fun config => Some (str "." ++ LanguageConfig.fileExtension config))
         <$> SUPPORTED_LANGUAGES.
Proof.
  split; [|repeat split].
  destruct outcome as [data|rm m|err]; eexists; (split; [reflexivity|]); auto.
  intros H. now destruct (H data).
Qed.

End Client.

(** ** The auth slice and the protected routes *)

Section Auth.

Import AuthSlice.









End Auth.
